(** * The virtual machine of [vmachine.py], embedded in Rocq

    [VirtualMachine] is a Python object with a flat [memory] list, six
    addressable registers, an instruction pointer and two flags.  Every
    instruction is a method wrapped by the [instruction] decorator: calling
    the method only builds a closure, and the closure runs the method body
    when it is called by [next].

    The embedding keeps that split.  The type [instr] is the type of those
    closures, the functions named after the methods ([move], [push], [sub],
    ...) are the method bodies, and [call] is what calling a closure does.
    The machine state is threaded explicitly; a raised exception is a
    result that carries the state as it was mutated up to the raise.

    What belongs to the Python host rather than to the program (the
    builtins [int] and [float] and the arithmetic of floats) is taken as a
    parameter, the class [Host]; every general theorem holds for any host. *)

From Stdlib Require Import ZArith Lia Ascii String DecimalString.
From stdpp Require Import base list strings.

Local Open Scope string_scope.
Local Open Scope list_scope.
Local Open Scope Z_scope.

(** ** Exceptions *)

Inductive exn_class :=
| TypeError | MemoryError | IndexError | ValueError
| ZeroDivisionError | OverflowError.

(** [msg] is the message of an exception raised by the program itself;
    an exception raised by the host carries [None]. *)
Record exn := Exn { cls : exn_class; msg : option string }.

Definition host_error (c : exn_class) : exn := Exn c None.

Inductive result (A : Type) :=
| Ok (a : A)
| Raise (e : exn).
Arguments Ok {A} a.
Arguments Raise {A} e.

Definition rbind {A B} (r : result A) (k : A -> result B) : result B :=
  match r with
  | Ok a => k a
  | Raise e => Raise e
  end.

Definition of_option {A} (c : exn_class) (o : option A) : result A :=
  match o with
  | Some a => Ok a
  | None => Raise (host_error c)
  end.

Declare Scope py_scope.
Delimit Scope py_scope with py.
Notation "'let?' x := r 'in' k" := (rbind r (fun x => k))
  (at level 10, x name, r at level 100, k at level 200) : py_scope.
Local Open Scope py_scope.

(** ** Python string operations used by the operand resolver *)

Module PyStr.

Fixpoint startswith (s p : string) : bool :=
  match p, s with
  | EmptyString, _ => true
  | String _ _, EmptyString => false
  | String a p', String b s' => Ascii.eqb a b && startswith s' p'
  end.

Fixpoint last_char (s : string) : option ascii :=
  match s with
  | EmptyString => None
  | String c EmptyString => Some c
  | String _ rest => last_char rest
  end.

(** [s.endswith(c)] for a one-character [c]. *)
Definition endswith (s : string) (c : ascii) : bool :=
  match last_char s with
  | Some d => Ascii.eqb c d
  | None => false
  end.

(** [c in s] for a one-character [c]. *)
Fixpoint contains (c : ascii) (s : string) : bool :=
  match s with
  | EmptyString => false
  | String d rest => Ascii.eqb c d || contains c rest
  end.

(** [s[1:-1]]: the string without its first and its last character
    (empty when [s] has fewer than two characters). *)
Definition strip_brackets (s : string) : string :=
  String.substring 1 (String.length s - 2) s.

(** [s.split(c)] for a one-character separator. *)
Fixpoint split (c : ascii) (s : string) : list string :=
  match s with
  | EmptyString => [EmptyString]
  | String d rest =>
      if Ascii.eqb c d then EmptyString :: split c rest
      else match split c rest with
           | piece :: pieces => String d piece :: pieces
           | [] => [String d EmptyString]
           end
  end.

End PyStr.

(** ** Instructions, values and the host *)

(** A closure built by a decorated method: the method and its arguments.
    [Unavailable] is the closure [lambda: unavailable(TypeError, 'Empty')]
    that fills the code segment of a new machine.  Operands are the
    strings handed to the method; [pop] alone also takes [None]. *)
Inductive instr :=
| Unavailable
| Move (destination source : string)
| Lea (destination variable : string)
| Push (target : string)
| Pop (writable : option string)
| Input (writable : string)
| Output (readable : string)
| Add (x y : string)
| Cmp (x y : string)
| Sub (x y : string)
| Mul (x y : string)
| Div (x y : string)
| Fdiv (x y : string)
| BitNot (x : string)
| BitTest (x y : string)
| BitAnd (x y : string)
| BitOr (x y : string)
| BitXor (x y : string)
| Jmp (address : string)
| Je (address : string)
| Jne (address : string)
| Jb (address : string)
| Jnb (address : string)
| Jbe (address : string)
| Ja (address : string)
| Jna (address : string)
| Jae (address : string)
| Ret.

(** [jz = je] and [jnz = jne]: two names for one method each. *)
Definition Jz : string -> instr := Je.
Definition Jnz : string -> instr := Jne.

Inductive arith := OpAdd | OpSub | OpMul | OpFloorDiv | OpTrueDiv.

(** The host: Python's [int(s)] and [float(s)] ([None] is [ValueError]),
    arithmetic when an operand is a float or the operator is [/] (the
    integer operand of a mixed operation is passed as it is), the
    comparison of a float with an integer, and [str] of a closure. *)
Class Host := {
  float : Type;
  int_of_str : string -> option Z;
  float_of_str : string -> option float;
  float_arith : arith -> Z + float -> Z + float -> exn_class + float;
  float_eq_int : float -> Z -> bool;
  float_lt_int : float -> Z -> bool;
  closure_str : instr -> string
}.

Section Machine.

Context {host : Host}.

(** What a register or a memory cell can hold: an integer, a float, or a
    closure (the code segment holds closures, and so does anything a
    closure was stored into). *)
Inductive value :=
| VInt (n : Z)
| VFloat (x : float)
| VFun (f : instr).

(** *** Python operators on values *)

Definition py_arith (op : arith) (v1 v2 : value) : result value :=
  match v1, v2 with
  | VInt a, VInt b =>
      match op with
      | OpAdd => Ok (VInt (a + b))
      | OpSub => Ok (VInt (a - b))
      | OpMul => Ok (VInt (a * b))
      | OpFloorDiv =>
          if b =? 0 then Raise (host_error ZeroDivisionError)
          else Ok (VInt (a / b))
      | OpTrueDiv =>
          if b =? 0 then Raise (host_error ZeroDivisionError)
          else match float_arith OpTrueDiv (inl a) (inl b) with
               | inl c => Raise (host_error c)
               | inr q => Ok (VFloat q)
               end
      end
  | VFun _, _ | _, VFun _ => Raise (host_error TypeError)
  | VInt a, VFloat y =>
      match float_arith op (inl a) (inr y) with
      | inl c => Raise (host_error c)
      | inr q => Ok (VFloat q)
      end
  | VFloat x, VInt b =>
      match float_arith op (inr x) (inl b) with
      | inl c => Raise (host_error c)
      | inr q => Ok (VFloat q)
      end
  | VFloat x, VFloat y =>
      match float_arith op (inr x) (inr y) with
      | inl c => Raise (host_error c)
      | inr q => Ok (VFloat q)
      end
  end.

(** [v1 & v2], [v1 | v2], [v1 ^ v2]: integers only. *)
Definition py_bitwise (f : Z -> Z -> Z) (v1 v2 : value) : result value :=
  match v1, v2 with
  | VInt a, VInt b => Ok (VInt (f a b))
  | _, _ => Raise (host_error TypeError)
  end.

(** [~v]. *)
Definition py_invert (v : value) : result value :=
  match v with
  | VInt a => Ok (VInt (Z.lnot a))
  | _ => Raise (host_error TypeError)
  end.

(** [v == n] for an integer [n]; a closure equals no integer. *)
Definition py_eq_int (v : value) (n : Z) : bool :=
  match v with
  | VInt a => a =? n
  | VFloat x => float_eq_int x n
  | VFun _ => false
  end.

(** [v < n] for an integer [n]; a closure is not ordered. *)
Definition py_lt_int (v : value) (n : Z) : result bool :=
  match v with
  | VInt a => Ok (a <? n)
  | VFloat x => Ok (float_lt_int x n)
  | VFun _ => Raise (host_error TypeError)
  end.

(** *** Indexing the memory list *)

(** The position a Python list of length [len] gives to the index [i]:
    a negative index counts from the end. *)
Definition list_index (len : nat) (i : Z) : result nat :=
  let j := if i <? 0 then i + Z.of_nat len else i in
  if (0 <=? j) && (j <? Z.of_nat len) then Ok (Z.to_nat j)
  else Raise (host_error IndexError).

(** [l[index]]. *)
Definition getitem (l : list value) (index : value) : result value :=
  match index with
  | VInt i =>
      let? k := list_index (length l) i in
      of_option IndexError (l !! k)
  | _ => Raise (host_error TypeError)
  end.

(** [l[index] = v]: the list after the assignment. *)
Definition setitem (l : list value) (index : value) (v : value)
  : result (list value) :=
  match index with
  | VInt i =>
      let? k := list_index (length l) i in
      Ok (<[k := v]> l)
  | _ => Raise (host_error TypeError)
  end.

(** *** The machine state *)

Inductive register := R_AX | R_BX | R_CX | R_DX | R_SP | R_BP.

Definition register_name (r : register) : string :=
  match r with
  | R_AX => "AX" | R_BX => "BX" | R_CX => "CX"
  | R_DX => "DX" | R_SP => "SP" | R_BP => "BP"
  end.

(** The list ['AX', 'BX', 'CX', 'DX', 'SP', 'BP'] of the resolver. *)
Definition registers : list register := [R_AX; R_BX; R_CX; R_DX; R_SP; R_BP].

(** The sink given as [output_stream]: the default [BytesIO] refuses the
    [str] that [output] writes; a text stream keeps the characters. *)
Inductive ostream :=
| BytesIO
| TextIO (written : list Z).

Record VM := {
  memory : list value;
  CS : Z;
  DS : Z;
  SS : Z;
  SP : value;
  BP : value;
  IP : value;
  AX : value;
  BX : value;
  CX : value;
  DX : value;
  ZERO : Z;
  NEG : Z;
  input_stream : list Z;
  output_stream : ostream
}.

Definition set_memory (m : list value) (vm : VM) : VM :=
  {| memory := m; CS := CS vm; DS := DS vm; SS := SS vm; SP := SP vm;
     BP := BP vm; IP := IP vm; AX := AX vm; BX := BX vm; CX := CX vm;
     DX := DX vm; ZERO := ZERO vm; NEG := NEG vm;
     input_stream := input_stream vm; output_stream := output_stream vm |}.

Definition set_SP (v : value) (vm : VM) : VM :=
  {| memory := memory vm; CS := CS vm; DS := DS vm; SS := SS vm; SP := v;
     BP := BP vm; IP := IP vm; AX := AX vm; BX := BX vm; CX := CX vm;
     DX := DX vm; ZERO := ZERO vm; NEG := NEG vm;
     input_stream := input_stream vm; output_stream := output_stream vm |}.

Definition set_BP (v : value) (vm : VM) : VM :=
  {| memory := memory vm; CS := CS vm; DS := DS vm; SS := SS vm; SP := SP vm;
     BP := v; IP := IP vm; AX := AX vm; BX := BX vm; CX := CX vm;
     DX := DX vm; ZERO := ZERO vm; NEG := NEG vm;
     input_stream := input_stream vm; output_stream := output_stream vm |}.

Definition set_IP (v : value) (vm : VM) : VM :=
  {| memory := memory vm; CS := CS vm; DS := DS vm; SS := SS vm; SP := SP vm;
     BP := BP vm; IP := v; AX := AX vm; BX := BX vm; CX := CX vm;
     DX := DX vm; ZERO := ZERO vm; NEG := NEG vm;
     input_stream := input_stream vm; output_stream := output_stream vm |}.

Definition set_AX (v : value) (vm : VM) : VM :=
  {| memory := memory vm; CS := CS vm; DS := DS vm; SS := SS vm; SP := SP vm;
     BP := BP vm; IP := IP vm; AX := v; BX := BX vm; CX := CX vm;
     DX := DX vm; ZERO := ZERO vm; NEG := NEG vm;
     input_stream := input_stream vm; output_stream := output_stream vm |}.

Definition set_BX (v : value) (vm : VM) : VM :=
  {| memory := memory vm; CS := CS vm; DS := DS vm; SS := SS vm; SP := SP vm;
     BP := BP vm; IP := IP vm; AX := AX vm; BX := v; CX := CX vm;
     DX := DX vm; ZERO := ZERO vm; NEG := NEG vm;
     input_stream := input_stream vm; output_stream := output_stream vm |}.

Definition set_CX (v : value) (vm : VM) : VM :=
  {| memory := memory vm; CS := CS vm; DS := DS vm; SS := SS vm; SP := SP vm;
     BP := BP vm; IP := IP vm; AX := AX vm; BX := BX vm; CX := v;
     DX := DX vm; ZERO := ZERO vm; NEG := NEG vm;
     input_stream := input_stream vm; output_stream := output_stream vm |}.

Definition set_DX (v : value) (vm : VM) : VM :=
  {| memory := memory vm; CS := CS vm; DS := DS vm; SS := SS vm; SP := SP vm;
     BP := BP vm; IP := IP vm; AX := AX vm; BX := BX vm; CX := CX vm;
     DX := v; ZERO := ZERO vm; NEG := NEG vm;
     input_stream := input_stream vm; output_stream := output_stream vm |}.

Definition set_ZERO (z : Z) (vm : VM) : VM :=
  {| memory := memory vm; CS := CS vm; DS := DS vm; SS := SS vm; SP := SP vm;
     BP := BP vm; IP := IP vm; AX := AX vm; BX := BX vm; CX := CX vm;
     DX := DX vm; ZERO := z; NEG := NEG vm;
     input_stream := input_stream vm; output_stream := output_stream vm |}.

Definition set_NEG (z : Z) (vm : VM) : VM :=
  {| memory := memory vm; CS := CS vm; DS := DS vm; SS := SS vm; SP := SP vm;
     BP := BP vm; IP := IP vm; AX := AX vm; BX := BX vm; CX := CX vm;
     DX := DX vm; ZERO := ZERO vm; NEG := z;
     input_stream := input_stream vm; output_stream := output_stream vm |}.

Definition set_input_stream (s : list Z) (vm : VM) : VM :=
  {| memory := memory vm; CS := CS vm; DS := DS vm; SS := SS vm; SP := SP vm;
     BP := BP vm; IP := IP vm; AX := AX vm; BX := BX vm; CX := CX vm;
     DX := DX vm; ZERO := ZERO vm; NEG := NEG vm;
     input_stream := s; output_stream := output_stream vm |}.

Definition set_output_stream (s : ostream) (vm : VM) : VM :=
  {| memory := memory vm; CS := CS vm; DS := DS vm; SS := SS vm; SP := SP vm;
     BP := BP vm; IP := IP vm; AX := AX vm; BX := BX vm; CX := CX vm;
     DX := DX vm; ZERO := ZERO vm; NEG := NEG vm;
     input_stream := input_stream vm; output_stream := s |}.

(** [getattr(self, register)] and [setattr(self, register, value)]. *)
Definition getattr (vm : VM) (r : register) : value :=
  match r with
  | R_AX => AX vm | R_BX => BX vm | R_CX => CX vm
  | R_DX => DX vm | R_SP => SP vm | R_BP => BP vm
  end.

Definition setattr (r : register) (v : value) (vm : VM) : VM :=
  match r with
  | R_AX => set_AX v vm | R_BX => set_BX v vm | R_CX => set_CX v vm
  | R_DX => set_DX v vm | R_SP => set_SP v vm | R_BP => set_BP v vm
  end.

(** [__init__]: the code segment is filled with the closure that raises,
    data and stack with zeros; [[x] * n] is empty for a negative [n]. *)
Definition init (memory_size : Z) (input : list Z) (output : ostream) : VM :=
  let n := Z.to_nat memory_size in
  let code := replicate n (VFun Unavailable) in
  let data := replicate n (VInt 0) in
  let stack := replicate n (VInt 0) in
  let mem := code ++ data ++ stack in
  {| memory := mem;
     CS := 0;
     DS := Z.of_nat (length code);
     SS := Z.of_nat (length (code ++ data));
     SP := VInt (Z.of_nat (length mem));
     BP := VInt (Z.of_nat (length mem) - 1);
     IP := VInt 0;
     AX := VInt 0; BX := VInt 0; CX := VInt 0; DX := VInt 0;
     ZERO := 0; NEG := 0;
     input_stream := input; output_stream := output |}.

(** *** Computations on the machine

    A method body runs on the machine and either returns or raises; in
    both cases the machine is left as the body mutated it. *)

Definition M (A : Type) : Type := VM -> result A * VM.

Definition pure {A} (a : A) : M A := fun vm => (Ok a, vm).

Definition throw {A} (e : exn) : M A := fun vm => (Raise e, vm).

Definition bind {A B} (m : M A) (k : A -> M B) : M B :=
  fun vm =>
    match m vm with
    | (Ok a, vm') => k a vm'
    | (Raise e, vm') => (Raise e, vm')
    end.

(** Read the machine without changing it. *)
Definition reading {A} (f : VM -> result A) : M A := fun vm => (f vm, vm).

Definition get {A} (f : VM -> A) : M A := fun vm => (Ok (f vm), vm).

Definition modify (f : VM -> VM) : M unit := fun vm => (Ok tt, f vm).

Definition when (b : bool) (m : M unit) : M unit := if b then m else pure tt.

(** [self.memory[index] = v], the index being read from the machine. *)
Definition store (index : VM -> value) (v : value) : M unit :=
  fun vm =>
    match setitem (memory vm) (index vm) v with
    | Ok cells => (Ok tt, set_memory cells vm)
    | Raise e => (Raise e, vm)
    end.

Notation "'let*' x := m 'in' k" := (bind m (fun x => k))
  (at level 10, x name, m at level 100, k at level 200) : py_scope.
Notation "m ;; k" := (bind m (fun _ => k))
  (at level 100, k at level 200, right associativity) : py_scope.

(** *** The operand resolver *)

(** [target in ['AX', 'BX', 'CX', 'DX', 'SP', 'BP']]. *)
Definition as_register (target : string) : option register :=
  List.find (fun r => String.eqb target (register_name r)) registers.

(** [target.startswith('[') and target.endswith(']')]. *)
Definition is_memory (target : string) : bool :=
  PyStr.startswith target "[" && PyStr.endswith target "]"%char.

(** The text after the first [sep] of [address], read by [int]:
    [int(address.split(sep)[1])]. *)
Definition int_after (sep : ascii) (address : string) : result Z :=
  let? piece := of_option IndexError (PyStr.split sep address !! 1%nat) in
  of_option ValueError (int_of_str piece).

(** The address a bracketed operand denotes; [address] is the text
    between the brackets.  [read_address] and [write_address] hold the
    same lines, once each. *)
Definition effective_address (vm : VM) (address : string) : result value :=
  match List.find (fun r => PyStr.startswith address (register_name r))
                  registers with
  | Some r =>
      let? offset :=
        if PyStr.contains "+"%char address then int_after "+"%char address
        else if PyStr.contains "-"%char address then
          let? n := int_after "-"%char address in Ok (- n)
        else Ok 0 in
      py_arith OpAdd (getattr vm r) (VInt offset)
  | None =>
      let? n := of_option ValueError (int_of_str address) in Ok (VInt n)
  end.

Definition NO_ADDRESS : exn := Exn TypeError (Some "NO ADDRESS").

Definition read_address (vm : VM) (target : string) (address_only : bool)
  : result value :=
  match as_register target with
  | Some r =>
      if address_only then Raise NO_ADDRESS else Ok (getattr vm r)
  | None =>
      if is_memory target then
        let? address := effective_address vm (PyStr.strip_brackets target) in
        if address_only then Ok address
        else getitem (memory vm) address
      else
        if address_only then Raise NO_ADDRESS
        else if PyStr.contains "."%char target then
          let? x := of_option ValueError (float_of_str target) in Ok (VFloat x)
        else
          let? n := of_option ValueError (int_of_str target) in Ok (VInt n)
  end.

Definition write_address (target : string) (v : value) : M unit :=
  match as_register target with
  | Some r => modify (setattr r v)
  | None =>
      if is_memory target then
        let* address :=
          reading (fun vm => effective_address vm (PyStr.strip_brackets target)) in
        store (fun _ => address) v
      else
        throw (Exn TypeError (Some ("Unknown type: " +:+ target)))
  end.

(** *** Program construction and the execution engine's fetch *)

(** [self.IP += 1], [self.SP -= 1] and the like. *)
Definition increment (r : VM -> value) (set : value -> VM -> VM) (d : Z)
  : M unit :=
  let* v := reading (fun vm => py_arith OpAdd (r vm) (VInt d)) in
  modify (set v).

Definition add_instruction (inst : value) : M unit :=
  store IP inst ;;
  increment IP set_IP 1.

(** *** The instruction set: the bodies of the decorated methods *)

Definition read (target : string) : M value :=
  reading (fun vm => read_address vm target false).

(** Python's truth value of an integer. *)
Definition truthy (z : Z) : bool := negb (z =? 0).

Definition move (destination source : string) : M (option value) :=
  let* source := read source in
  write_address destination source ;;
  pure None.

Definition lea (destination variable : string) : M (option value) :=
  let* variable := reading (fun vm => read_address vm variable true) in
  write_address destination variable ;;
  pure None.

Definition push (target : string) : M (option value) :=
  let* sp := reading (fun vm => py_arith OpSub (SP vm) (VInt 1)) in
  modify (set_SP sp) ;;
  let* full := get (fun vm => py_eq_int (SP vm) (SS vm)) in
  if full then throw (Exn MemoryError (Some "Insufficient stack space"))
  else
    let* target := read target in
    store SP target ;;
    pure None.

Definition pop (writable : option string) : M (option value) :=
  let* v := reading (fun vm => getitem (memory vm) (SP vm)) in
  increment SP set_SP 1 ;;
  match writable with
  | Some w => write_address w v
  | None => pure tt
  end ;;
  pure (Some v).

(** [ord(self.input_stream.read(1))]: at the end of the stream [read]
    gives an empty string and [ord] raises. *)
Definition input (writable : string) : M (option value) :=
  let* bytes := get input_stream in
  match bytes with
  | b :: rest =>
      modify (set_input_stream rest) ;;
      write_address writable (VInt b)
  | [] => throw (host_error TypeError)
  end ;;
  pure None.

(** [chr(v)]. *)
Definition chr (v : value) : result Z :=
  match v with
  | VInt n =>
      if (n <? - 2 ^ 31) || (2 ^ 31 <=? n) then Raise (host_error OverflowError)
      else if (0 <=? n) && (n <? 1114112) then Ok n
      else Raise (host_error ValueError)
  | _ => Raise (host_error TypeError)
  end.

Definition output (readable : string) : M (option value) :=
  let* v := read readable in
  let* c := reading (fun _ => chr v) in
  let* out := get output_stream in
  match out with
  | BytesIO => throw (host_error TypeError)
  | TextIO written => modify (set_output_stream (TextIO (written ++ [c])))
  end ;;
  pure None.

Definition set_flags (v : value) : M unit :=
  when (py_eq_int v 0) (modify (set_ZERO 1)) ;;
  let* negative := reading (fun _ => py_lt_int v 0) in
  when negative (modify (set_NEG 1)).

Definition add (x y : string) : M (option value) :=
  let* value1 := read x in
  let* value2 := read y in
  let* total := reading (fun _ => py_arith OpAdd value1 value2) in
  set_flags total ;;
  write_address x total ;;
  pure (Some total).

Definition cmp (x y : string) : M (option value) :=
  let* value1 := read x in
  let* value2 := read y in
  let* diff := reading (fun _ => py_arith OpSub value1 value2) in
  set_flags diff ;;
  pure (Some diff).

(** [self.cmp(x, y)] is a call of the decorated method: it builds the
    closure and does not run [cmp].  The closure is what is stored. *)
Definition sub (x y : string) : M (option value) :=
  let diff := VFun (Cmp x y) in
  write_address x diff ;;
  pure (Some diff).

Definition mul (x y : string) : M (option value) :=
  let* value1 := read x in
  let* value2 := read y in
  let* prod := reading (fun _ => py_arith OpMul value1 value2) in
  set_flags prod ;;
  write_address x prod ;;
  pure None.

Definition div (x y : string) : M (option value) :=
  let* value1 := read x in
  let* value2 := read y in
  let* quot := reading (fun _ => py_arith OpFloorDiv value1 value2) in
  set_flags quot ;;
  write_address x quot ;;
  pure None.

Definition fdiv (x y : string) : M (option value) :=
  let* value1 := read x in
  let* value2 := read y in
  let* quot := reading (fun _ => py_arith OpTrueDiv value1 value2) in
  set_flags quot ;;
  write_address x quot ;;
  pure None.

Definition bit_not (x : string) : M (option value) :=
  let* v := read x in
  let* r := reading (fun _ => py_invert v) in
  set_flags r ;;
  write_address x r ;;
  pure None.

Definition bit_test (x y : string) : M (option value) :=
  let* value1 := read x in
  let* value2 := read y in
  let* r := reading (fun _ => py_bitwise Z.land value1 value2) in
  set_flags r ;;
  pure (Some r).

(** As in [sub]: [self.bit_test(x, y)] only builds the closure. *)
Definition bit_and (x y : string) : M (option value) :=
  let r := VFun (BitTest x y) in
  write_address x r ;;
  pure None.

Definition bit_or (x y : string) : M (option value) :=
  let* value1 := read x in
  let* value2 := read y in
  let* r := reading (fun _ => py_bitwise Z.lor value1 value2) in
  set_flags r ;;
  write_address x r ;;
  pure None.

Definition bit_xor (x y : string) : M (option value) :=
  let* value1 := read x in
  let* value2 := read y in
  let* r := reading (fun _ => py_bitwise Z.lxor value1 value2) in
  set_flags r ;;
  write_address x r ;;
  pure None.

Definition jmp (address : string) : M (option value) :=
  let* address := read address in
  modify (set_IP address) ;;
  pure None.

Definition je (address : string) : M (option value) :=
  let* address := read address in
  let* taken := get (fun vm => truthy (ZERO vm)) in
  when taken (modify (set_IP address)) ;;
  pure None.

Definition jne (address : string) : M (option value) :=
  let* address := read address in
  let* taken := get (fun vm => negb (truthy (ZERO vm))) in
  when taken (modify (set_IP address)) ;;
  pure None.

Definition jb (address : string) : M (option value) :=
  let* address := read address in
  let* taken := get (fun vm => negb (truthy (ZERO vm)) && truthy (NEG vm)) in
  when taken (modify (set_IP address)) ;;
  pure None.

Definition jnb (address : string) : M (option value) :=
  let* address := read address in
  let* taken := get (fun vm => truthy (ZERO vm) || negb (truthy (NEG vm))) in
  when taken (modify (set_IP address)) ;;
  pure None.

Definition jbe (address : string) : M (option value) :=
  let* address := read address in
  let* taken := get (fun vm => truthy (ZERO vm) || truthy (NEG vm)) in
  when taken (modify (set_IP address)) ;;
  pure None.

Definition ja (address : string) : M (option value) :=
  let* address := read address in
  let* taken := get (fun vm => negb (truthy (ZERO vm)) && negb (truthy (NEG vm))) in
  when taken (modify (set_IP address)) ;;
  pure None.

Definition jna (address : string) : M (option value) :=
  let* address := read address in
  let* taken := get (fun vm => truthy (ZERO vm) || truthy (NEG vm)) in
  when taken (modify (set_IP address)) ;;
  pure None.

Definition jae (address : string) : M (option value) :=
  let* address := read address in
  let* taken := get (fun vm => truthy (ZERO vm) || negb (truthy (NEG vm))) in
  when taken (modify (set_IP address)) ;;
  pure None.

(** [self.pop(None)] and [self.jmp(...)] are calls of decorated methods:
    the first builds a closure of [pop], the second a closure of [jmp] on
    the text of the first, and neither closure is called. *)
Definition ret : M (option value) :=
  let address := Pop None in
  let _ := Jmp (closure_str address) in
  pure None.

(** Calling a closure runs the body of its method on its arguments. *)
Definition call (f : instr) : M (option value) :=
  match f with
  | Unavailable => throw (Exn TypeError (Some "Empty"))
  | Move destination source => move destination source
  | Lea destination variable => lea destination variable
  | Push target => push target
  | Pop writable => pop writable
  | Input writable => input writable
  | Output readable => output readable
  | Add x y => add x y
  | Cmp x y => cmp x y
  | Sub x y => sub x y
  | Mul x y => mul x y
  | Div x y => div x y
  | Fdiv x y => fdiv x y
  | BitNot x => bit_not x
  | BitTest x y => bit_test x y
  | BitAnd x y => bit_and x y
  | BitOr x y => bit_or x y
  | BitXor x y => bit_xor x y
  | Jmp address => jmp address
  | Je address => je address
  | Jne address => jne address
  | Jb address => jb address
  | Jnb address => jnb address
  | Jbe address => jbe address
  | Ja address => ja address
  | Jna address => jna address
  | Jae address => jae address
  | Ret => ret
  end.

(** [inst()] for whatever the fetched cell holds: a number is not
    callable. *)
Definition call_value (inst : value) : M (option value) :=
  match inst with
  | VFun f => call f
  | _ => throw (host_error TypeError)
  end.

Definition next : M (option value) :=
  let* inst := reading (fun vm => getitem (memory vm) (IP vm)) in
  increment IP set_IP 1 ;;
  call_value inst.

(** *** The caller: [main.py]

    [main] builds a machine with the default size, gives it the standard
    input as byte source and the standard output as text sink, appends
    [input AX] and [output AX], sets IP to 0 and steps twice, printing AX
    between the steps.  [print] writes to the standard output, which is
    the machine's own sink there. *)

(** The character codes of a text. *)
Definition codes (s : string) : list Z :=
  map (fun c => Z.of_nat (nat_of_ascii c)) (list_ascii_of_string s).

(** [print(s)] on the stream the machine writes to: the text, then a
    newline.  A byte sink is not the standard output and gets nothing. *)
Definition print (s : string) (vm : VM) : VM :=
  match output_stream vm with
  | TextIO written => set_output_stream (TextIO (written ++ codes s ++ [10])) vm
  | BytesIO => vm
  end.

Section Main.

(** [int(x)] of a float, which ['%d'] applies to a float argument. *)
Variable int_of_float : float -> exn_class + Z.

(** ['%d' % v]. *)
Definition format_d (v : value) : result string :=
  match v with
  | VInt n => Ok (NilZero.string_of_int (Z.to_int n))
  | VFloat x =>
      match int_of_float x with
      | inl c => Raise (host_error c)
      | inr n => Ok (NilZero.string_of_int (Z.to_int n))
      end
  | VFun _ => Raise (host_error TypeError)
  end.

Definition main (stdin : list Z) : result unit * VM :=
  let vm := init 10000 [] BytesIO in
  let vm := set_input_stream stdin vm in
  let vm := set_output_stream (TextIO []) vm in
  (add_instruction (VFun (Input "AX")) ;;
   add_instruction (VFun (Output "AX")) ;;
   modify (set_IP (VInt 0)) ;;
   next ;;
   let* number := reading (fun vm => format_d (AX vm)) in
   modify (print ("--------------AX: " +:+ number +:+ "----------------")) ;;
   next ;;
   pure tt) vm.

End Main.

(** *** Vocabulary of the properties *)

(** [m] keeps the relation [R] between the machine before and after,
    whether it returns or raises. *)
Definition keeps (R : VM -> VM -> Prop) {A} (m : M A) : Prop :=
  forall vm, R vm (snd (m vm)).

(** Flags only rise: each flag is as before or has become 1. *)
Definition flags_rise (vm vm' : VM) : Prop :=
  (ZERO vm' = ZERO vm \/ ZERO vm' = 1) /\ (NEG vm' = NEG vm \/ NEG vm' = 1).

(** The layout is fixed: same number of cells, same segment bases. *)
Definition same_layout (vm vm' : VM) : Prop :=
  length (memory vm') = length (memory vm)
  /\ CS vm' = CS vm /\ DS vm' = DS vm /\ SS vm' = SS vm.

(** The two flags of a machine. *)
Definition flags (vm : VM) : Z * Z := (ZERO vm, NEG vm).

(** The machine after [set_flags] on the result [v]: ZERO becomes 1 when
    [v == 0], NEG becomes 1 when [v < 0], and nothing else changes. *)
Definition flags_after (v : value) (vm : VM) : VM :=
  let vm := if py_eq_int v 0 then set_ZERO 1 vm else vm in
  match py_lt_int v 0 with
  | Ok true => set_NEG 1 vm
  | _ => vm
  end.

End Machine.

(** ** A host to run the machine on

    [int] reads ASCII decimal text as Python does: blanks around it, an
    optional sign, digits with single underscores between them.  Floats
    are exact rationals, read from Python's decimal syntax (a point with
    digits on at least one side, an optional exponent), which is enough
    to run programs; Python's rounding, overflow and infinities are not
    reproduced, and no theorem below depends on this host except through
    the concrete runs that name it. *)

Module RefHost.

Definition is_space (c : ascii) : bool :=
  let n := nat_of_ascii c in
  ((9 <=? n) && (n <=? 13) || (n =? 32))%nat.

Fixpoint lstrip (s : string) : string :=
  match s with
  | String c rest => if is_space c then lstrip rest else s
  | EmptyString => s
  end.

Definition strip (s : string) : string :=
  String.rev (lstrip (String.rev (lstrip s))).

Definition digit (c : ascii) : option Z :=
  let n := nat_of_ascii c in
  if ((48 <=? n) && (n <=? 57))%nat then Some (Z.of_nat n - 48) else None.

(** Digits with single underscores between them; [after_digit] tells
    whether the previous character was a digit. *)
Fixpoint digits (acc : Z) (after_digit : bool) (s : string) : option Z :=
  match s with
  | EmptyString => if after_digit then Some acc else None
  | String c rest =>
      if Ascii.eqb c "_" then
        if after_digit then digits acc false rest else None
      else
        match digit c with
        | Some d => digits (10 * acc + d) true rest
        | None => None
        end
  end.

Definition signed (body : string -> option Z) (s : string) : option Z :=
  match s with
  | String "-" rest => Z.opp <$> body rest
  | String "+" rest => body rest
  | _ => body s
  end.

Definition int_of_str (s : string) : option Z :=
  signed (digits 0 false) (strip s).

(** A rational [num/den] with [den > 0]. *)
Definition float : Type := Z * positive.

Definition of_int (n : Z) : float := (n, 1%positive).

(** Ten to the number of digits of [s]. *)
Fixpoint scale (s : string) : positive :=
  match s with
  | EmptyString => 1%positive
  | String c rest =>
      match digit c with
      | Some _ => (10 * scale rest)%positive
      | None => scale rest
      end
  end.

(** Digits as in [digits], or nothing at all. *)
Definition digits_or_none (s : string) : option Z :=
  match s with
  | EmptyString => Some 0
  | _ => digits 0 false s
  end.

(** The text before the first [e] or [E], and the text after it. *)
Fixpoint split_exponent (s : string) : string * option string :=
  match s with
  | EmptyString => (EmptyString, None)
  | String c rest =>
      if Ascii.eqb c "e" || Ascii.eqb c "E" then (EmptyString, Some rest)
      else let '(m, e) := split_exponent rest in (String c m, e)
  end.

(** [whole.frac] with digits on at least one side of the point. *)
Definition mantissa (s : string) : option float :=
  match PyStr.split "." s with
  | [whole; frac] =>
      match whole, frac with
      | EmptyString, EmptyString => None
      | _, _ =>
          match digits_or_none whole, digits_or_none frac with
          | Some w, Some f => Some (w * Z.pos (scale frac) + f, scale frac)
          | _, _ => None
          end
      end
  | _ => None
  end.

Definition float_of_str (s : string) : option float :=
  let s := strip s in
  let negative := PyStr.startswith s "-" in
  let s := match s with
           | String "-" rest | String "+" rest => rest
           | _ => s
           end in
  let '(m, e) := split_exponent s in
  match mantissa m, match e with
                    | None => Some 0
                    | Some e => signed (digits 0 false) e
                    end with
  | Some (n, d), Some k =>
      let n := if negative then - n else n in
      Some (match k with
            | Zneg p => (n, (d * Pos.pow 10 p)%positive)
            | _ => (n * 10 ^ k, d)
            end)
  | _, _ => None
  end.

Definition coerce (v : Z + float) : float :=
  match v with
  | inl n => of_int n
  | inr x => x
  end.

Definition float_arith (op : arith) (v1 v2 : Z + float)
  : exn_class + float :=
  let '(a, b) := coerce v1 in
  let '(c, d) := coerce v2 in
  match op with
  | OpAdd => inr (a * Z.pos d + c * Z.pos b, (b * d)%positive)
  | OpSub => inr (a * Z.pos d - c * Z.pos b, (b * d)%positive)
  | OpMul => inr (a * c, (b * d)%positive)
  | OpFloorDiv =>
      if c =? 0 then inl ZeroDivisionError
      else inr ((a * Z.pos d) / (c * Z.pos b), 1%positive)
  | OpTrueDiv =>
      match c with
      | Z0 => inl ZeroDivisionError
      | Zpos p => inr (a * Z.pos d, (b * p)%positive)
      | Zneg p => inr (- (a * Z.pos d), (b * p)%positive)
      end
  end.

Definition float_eq_int (x : float) (n : Z) : bool :=
  fst x =? n * Z.pos (snd x).

Definition float_lt_int (x : float) (n : Z) : bool :=
  fst x <? n * Z.pos (snd x).

Definition closure_str (f : instr) : string := "<function>".

(** [int(x)]: the rational cut toward zero. *)
Definition int_of_float (x : float) : exn_class + Z :=
  inr (Z.quot (fst x) (Z.pos (snd x))).

Definition host : Host :=
  Build_Host float int_of_str float_of_str float_arith
             float_eq_int float_lt_int closure_str.

End RefHost.

(** ** Machines the concrete runs start from *)

Module Examples.

(** A new machine with two cells per segment: six cells, SS = 4, SP = 6. *)
Definition fresh : VM (host := RefHost.host) := init 2 [] BytesIO.

(** [fresh] after [push 1]: SP = 5 and the cell at 5 holds 1. *)
Definition with_return_address : VM (host := RefHost.host) :=
  snd (call (Push "1") fresh).

(** [fresh] with AX = 5. *)
Definition ax5 : VM (host := RefHost.host) := set_AX (VInt 5) fresh.

(** [fresh] with AX = 6. *)
Definition ax6 : VM (host := RefHost.host) := set_AX (VInt 6) fresh.

(** A new machine with one cell per segment: its only usable stack
    address is the segment base, so the first push is refused. *)
Definition full_stack : VM (host := RefHost.host) := init 1 [] BytesIO.

(** A new machine with four cells per segment: SS = 8, SP = 12. *)
Definition roomy : VM (host := RefHost.host) := init 4 [] BytesIO.

(** [fresh] with the program [jmp 3] appended at address 0 and IP set
    back to 0, as a caller does before running. *)
Definition jmp_program : VM (host := RefHost.host) :=
  set_IP (VInt 0) (snd (add_instruction (VFun (Jmp "3")) fresh)).

(** The same with [je 3] as program, once with ZERO raised and once
    with both flags clear. *)
Definition je_program : VM (host := RefHost.host) :=
  set_IP (VInt 0) (snd (add_instruction (VFun (Je "3")) fresh)).

Definition je_program_zero : VM (host := RefHost.host) :=
  set_ZERO 1 je_program.

(** A byte sink with a byte waiting in the source, and a text sink with
    the source at its end. *)
Definition byte_sink_with_input : VM (host := RefHost.host) :=
  init 2 [65] BytesIO.

Definition text_sink_at_end : VM (host := RefHost.host) :=
  init 2 [] (TextIO []).

(** [fresh] with the byte 65 waiting in the source and a text sink. *)
Definition terminal : VM (host := RefHost.host) := init 2 [65] (TextIO []).

(** [fresh] with IP moved to 6, one past the last cell. *)
Definition ip_past_end : VM (host := RefHost.host) := set_IP (VInt 6) fresh.

End Examples.

(** ** Properties of the machine, for every host *)

Section Properties.

Context {host : Host}.

Implicit Types (vm : VM) (v : value) (l : list value).

(** *** Indexing *)

Lemma list_index_in_range (len : nat) (i : Z) :
  0 <= i < Z.of_nat len -> list_index len i = Ok (Z.to_nat i).
Proof.
  intros Hi. unfold list_index.
  destruct (Z.ltb_spec i 0); [lia|].
  destruct (Z.leb_spec 0 i); [|lia].
  destruct (Z.ltb_spec i (Z.of_nat len)); [reflexivity|lia].
Qed.

Lemma list_index_from_end (len : nat) (i : Z) :
  - Z.of_nat len <= i < 0 ->
  list_index len i = Ok (Z.to_nat (i + Z.of_nat len)).
Proof.
  intros Hi. unfold list_index.
  destruct (Z.ltb_spec i 0); [|lia].
  destruct (Z.leb_spec 0 (i + Z.of_nat len)); [|lia].
  destruct (Z.ltb_spec (i + Z.of_nat len) (Z.of_nat len)); [reflexivity|lia].
Qed.

Lemma list_index_outside (len : nat) (i : Z) :
  i < - Z.of_nat len \/ Z.of_nat len <= i ->
  list_index len i = Raise (host_error IndexError).
Proof.
  intros Hi. unfold list_index.
  destruct (Z.ltb_spec i 0).
  - destruct (Z.leb_spec 0 (i + Z.of_nat len)); [lia|reflexivity].
  - destruct (Z.leb_spec 0 i); [|lia].
    destruct (Z.ltb_spec i (Z.of_nat len)); [lia|reflexivity].
Qed.

Lemma getitem_in_range l (i : Z) v :
  0 <= i -> l !! Z.to_nat i = Some v -> getitem l (VInt i) = Ok v.
Proof.
  intros Hi Hl. unfold getitem.
  rewrite list_index_in_range.
  - simpl. rewrite Hl. reflexivity.
  - apply lookup_lt_Some in Hl. lia.
Qed.

Lemma setitem_in_range l (i : Z) v :
  0 <= i < Z.of_nat (length l) ->
  setitem l (VInt i) v = Ok (<[Z.to_nat i := v]> l).
Proof.
  intros Hi. unfold setitem. rewrite list_index_in_range by assumption.
  reflexivity.
Qed.

Lemma setitem_length l (index : value) v l' :
  setitem l index v = Ok l' -> length l' = length l.
Proof.
  destruct index; simpl; try discriminate.
  destruct (list_index (length l) n); simpl; [|discriminate].
  intros [= <-]. apply length_insert.
Qed.

(** *** Unfolding a method body *)

Ltac run :=
  cbv beta iota delta
    [bind pure throw reading get modify when increment read store].

(** *** The stack *)

Lemma push_stores vm (sp : Z) (target : string) v :
  SP vm = VInt sp ->
  sp - 1 <> SS vm ->
  0 <= sp - 1 < Z.of_nat (length (memory vm)) ->
  read_address (set_SP (VInt (sp - 1)) vm) target false = Ok v ->
  push target vm =
    (Ok None,
     set_memory (<[Z.to_nat (sp - 1) := v]> (memory vm))
                (set_SP (VInt (sp - 1)) vm)).
Proof.
  intros Hsp Hfull Hin Hread. unfold push. run.
  rewrite Hsp. cbn [py_arith py_eq_int set_SP SP SS].
  destruct (Z.eqb_spec (sp - 1) (SS vm)) as [E|_]; [contradiction|].
  rewrite Hread. cbn [memory set_SP SP].
  rewrite setitem_in_range by assumption. reflexivity.
Qed.

Lemma pop_reads vm (sp : Z) v :
  SP vm = VInt sp ->
  0 <= sp ->
  memory vm !! Z.to_nat sp = Some v ->
  pop None vm = (Ok (Some v), set_SP (VInt (sp + 1)) vm).
Proof.
  intros Hsp Hpos Hcell. unfold pop. run.
  rewrite Hsp, (getitem_in_range _ _ v) by assumption.
  reflexivity.
Qed.

(** C8, as the code has it.  Stack discipline is LIFO above the segment
    base.  From a machine whose SP is the integer [sp], let the two
    pushes land strictly above the stack segment base ([SS < sp - 2]) and
    inside Memory ([sp] at most the memory length), and let the operands
    [t1] and [t2] resolve to [v1] and [v2] when the pushes read them.
    Then [push t1; push t2] followed by two pops runs without an
    exception, the first pop returns [v2], the second returns [v1], and
    SP is back at its value before the first push.  The base cell itself
    belongs to the segment but no push may land on it. *)
Theorem push_push_pop_pop vm (sp : Z) (t1 t2 : string) v1 v2 vm1 :
  SP vm = VInt sp ->
  0 <= SS vm < sp - 2 ->
  sp <= Z.of_nat (length (memory vm)) ->
  read_address (set_SP (VInt (sp - 1)) vm) t1 false = Ok v1 ->
  vm1 = snd (call (Push t1) vm) ->
  read_address (set_SP (VInt (sp - 2)) vm1) t2 false = Ok v2 ->
  exists vm2 vm3 vm4,
    call (Push t1) vm = (Ok None, vm1) /\
    call (Push t2) vm1 = (Ok None, vm2) /\
    call (Pop None) vm2 = (Ok (Some v2), vm3) /\
    call (Pop None) vm3 = (Ok (Some v1), vm4) /\
    SP vm4 = SP vm.
Proof.
  intros Hsp Hss Hlen Hr1 Hvm1 Hr2. cbn [call] in *.
  assert (P1 := push_stores vm sp t1 v1 Hsp).
  rewrite P1 in Hvm1 by (assumption || lia). cbn [snd] in Hvm1.
  rewrite P1 by (assumption || lia). clear P1.
  set (m1 := <[Z.to_nat (sp - 1) := v1]> (memory vm)) in *.
  assert (Hm1 : length m1 = length (memory vm)) by apply length_insert.
  assert (Hsp1 : SP vm1 = VInt (sp - 1)) by (subst vm1; reflexivity).
  assert (Hmem1 : memory vm1 = m1) by (subst vm1; reflexivity).
  assert (Hss1 : SS vm1 = SS vm) by (subst vm1; reflexivity).
  replace (sp - 2) with (sp - 1 - 1) in Hr2 by lia.
  assert (P2 := push_stores vm1 (sp - 1) t2 v2 Hsp1).
  rewrite Hmem1, Hm1, Hss1 in P2.
  specialize (P2 ltac:(lia) ltac:(lia) Hr2).
  set (m2 := <[Z.to_nat (sp - 1 - 1) := v2]> m1) in *.
  set (vm2 := set_memory m2 (set_SP (VInt (sp - 1 - 1)) vm1)) in *.
  assert (Hc2 : m2 !! Z.to_nat (sp - 1 - 1) = Some v2).
  { apply list_lookup_insert_eq. lia. }
  assert (Hc1 : m2 !! Z.to_nat (sp - 1 - 1 + 1) = Some v1).
  { unfold m2. rewrite list_lookup_insert_ne by lia.
    replace (sp - 1 - 1 + 1) with (sp - 1) by lia.
    apply list_lookup_insert_eq. lia. }
  exists vm2, (set_SP (VInt (sp - 1 - 1 + 1)) vm2),
         (set_SP (VInt (sp - 1 - 1 + 1 + 1))
                 (set_SP (VInt (sp - 1 - 1 + 1)) vm2)).
  repeat split.
  - subst vm1. reflexivity.
  - exact P2.
  - apply pop_reads; [reflexivity | lia | exact Hc2].
  - apply pop_reads; [reflexivity | lia | exact Hc1].
  - cbn [SP set_SP]. rewrite Hsp. f_equal. lia.
Qed.

(** C5, as the code has it.  When SP - 1 equals the stack segment base,
    executing push raises the out-of-stack-space error before the operand
    is resolved and before Memory is written: Memory, BP, IP, the four
    general registers and the flags are unchanged.  SP is not restored: it
    has been decremented and now equals the segment base. *)
Theorem push_at_capacity vm (sp : Z) (target : string) :
  SP vm = VInt sp ->
  sp - 1 = SS vm ->
  call (Push target) vm =
    (Raise (Exn MemoryError (Some "Insufficient stack space")),
     set_SP (VInt (sp - 1)) vm)
  /\ memory (set_SP (VInt (sp - 1)) vm) = memory vm
  /\ SP (set_SP (VInt (sp - 1)) vm) = VInt (SS vm).
Proof.
  intros Hsp Hfull. cbn [call]. unfold push. run.
  rewrite Hsp. cbn [py_arith py_eq_int set_SP SP SS memory].
  rewrite Hfull, Z.eqb_refl. auto.
Qed.

(** C10.  pop has no underflow check.  On a newly constructed machine SP
    equals the memory length, and executing pop, with or without a
    destination, raises the list's out-of-range error [IndexError] on the
    read of Memory[SP]; the machine, SP included, is unchanged. *)
Theorem pop_on_new_machine (memory_size : Z) (input : list Z)
    (output : ostream) (writable : option string) :
  SP (init memory_size input output)
    = VInt (Z.of_nat (length (memory (init memory_size input output))))
  /\ call (Pop writable) (init memory_size input output)
     = (Raise (host_error IndexError), init memory_size input output).
Proof.
  split; [reflexivity|].
  cbn [call]. unfold pop. run.
  set (vm := init memory_size input output).
  change (SP vm) with (VInt (Z.of_nat (length (memory vm)))).
  unfold getitem. rewrite list_index_outside by lia. reflexivity.
Qed.

(** C9.  One step of the engine reads the cell at IP, adds one to IP, and
    then calls what it read on the machine with the advanced IP; the
    result of the step is the result of that call.  So when the cell at
    [a] holds a jump whose [address] resolves to [t], the step of a taken
    jump ends with IP = [t], not [a + 1]: the jump's write to IP comes
    after the advance.  [jmp] is always taken; each conditional jump is
    taken exactly under its condition on the flags, and a jump that is
    not taken leaves IP at [a + 1]. *)
Theorem next_fetch_advance_execute vm (a : Z) (cell : value) :
  IP vm = VInt a ->
  getitem (memory vm) (VInt a) = Ok cell ->
  next vm = call_value cell (set_IP (VInt (a + 1)) vm)
  /\ forall (address : string) (t : value),
       read_address (set_IP (VInt (a + 1)) vm) address false = Ok t ->
       (cell = VFun (Jmp address) ->
          next vm = (Ok None, set_IP t vm) /\ IP (set_IP t vm) = t)
       /\ (cell = VFun (Je address) ->
           next vm = (Ok None,
                      if truthy (ZERO vm)
                      then set_IP t vm else set_IP (VInt (a + 1)) vm))
       /\ (cell = VFun (Jne address) ->
           next vm = (Ok None,
                      if negb (truthy (ZERO vm))
                      then set_IP t vm else set_IP (VInt (a + 1)) vm))
       /\ (cell = VFun (Jb address) ->
           next vm = (Ok None,
                      if negb (truthy (ZERO vm)) && truthy (NEG vm)
                      then set_IP t vm else set_IP (VInt (a + 1)) vm))
       /\ (cell = VFun (Jnb address) ->
           next vm = (Ok None,
                      if truthy (ZERO vm) || negb (truthy (NEG vm))
                      then set_IP t vm else set_IP (VInt (a + 1)) vm))
       /\ (cell = VFun (Jbe address) ->
           next vm = (Ok None,
                      if truthy (ZERO vm) || truthy (NEG vm)
                      then set_IP t vm else set_IP (VInt (a + 1)) vm))
       /\ (cell = VFun (Ja address) ->
           next vm = (Ok None,
                      if negb (truthy (ZERO vm)) && negb (truthy (NEG vm))
                      then set_IP t vm else set_IP (VInt (a + 1)) vm))
       /\ (cell = VFun (Jna address) ->
           next vm = (Ok None,
                      if truthy (ZERO vm) || truthy (NEG vm)
                      then set_IP t vm else set_IP (VInt (a + 1)) vm))
       /\ (cell = VFun (Jae address) ->
           next vm = (Ok None,
                      if truthy (ZERO vm) || negb (truthy (NEG vm))
                      then set_IP t vm else set_IP (VInt (a + 1)) vm)).
Proof.
  intros Hip Hcell.
  assert (Hnext : next vm = call_value cell (set_IP (VInt (a + 1)) vm)).
  { unfold next. run. rewrite Hip, Hcell. reflexivity. }
  split; [exact Hnext|].
  intros address t Hread.
  repeat apply conj; intros ->; rewrite Hnext; cbn [call_value call];
    unfold jmp, je, jne, jb, jnb, jbe, ja, jna, jae; run; rewrite Hread;
    cbn [ZERO NEG set_IP];
    try (split; reflexivity);
    destruct (truthy (ZERO vm)), (truthy (NEG vm)); reflexivity.
Qed.

(** *** The operand resolver on bracketed operands *)

Lemma is_memory_not_register (target : string) :
  is_memory target = true -> as_register target = None.
Proof.
  unfold is_memory. intros H.
  apply andb_true_iff in H as [H _].
  destruct target as [|c rest]; [discriminate|].
  change (PyStr.startswith (String c rest) "[")
    with (Ascii.eqb "[" c && PyStr.startswith rest "") in H.
  destruct (Ascii.eqb_spec "[" c) as [<-|]; [reflexivity|discriminate].
Qed.

Lemma address_of_memory_operand vm (target : string) (address : value) :
  is_memory target = true ->
  read_address vm target true = Ok address ->
  effective_address vm (PyStr.strip_brackets target) = Ok address.
Proof.
  intros Hmem. unfold read_address.
  rewrite (is_memory_not_register _ Hmem), Hmem.
  destruct (effective_address _ _); simpl; congruence.
Qed.

Lemma read_memory_operand vm (target : string) (address : value) :
  is_memory target = true ->
  read_address vm target true = Ok address ->
  read_address vm target false = getitem (memory vm) address.
Proof.
  intros Hmem Haddr.
  apply address_of_memory_operand in Haddr; [|assumption].
  unfold read_address.
  rewrite (is_memory_not_register _ Hmem), Hmem, Haddr. reflexivity.
Qed.

Lemma write_memory_operand vm (target : string) (address : value) v :
  is_memory target = true ->
  read_address vm target true = Ok address ->
  write_address target v vm =
    match setitem (memory vm) address v with
    | Ok cells => (Ok tt, set_memory cells vm)
    | Raise e => (Raise e, vm)
    end.
Proof.
  intros Hmem Haddr.
  apply address_of_memory_operand in Haddr; [|assumption].
  unfold write_address.
  rewrite (is_memory_not_register _ Hmem), Hmem. run.
  rewrite Haddr. reflexivity.
Qed.

(** A write never changes the number of cells. *)
Lemma write_address_length (target : string) v vm :
  length (memory (snd (write_address target v vm))) = length (memory vm).
Proof.
  unfold write_address.
  destruct (as_register target) as [r|].
  - destruct r; reflexivity.
  - destruct (is_memory target); [|reflexivity]. run.
    destruct (effective_address _ _) as [address|]; [|reflexivity].
    destruct (setitem _ _ _) as [cells|] eqn:E; [|reflexivity].
    cbn [snd set_memory memory]. eapply setitem_length, E.
Qed.

(** C6, as the code has it.  Let a bracketed operand have the integer
    effective address [a], and let [len] be the number of Memory cells.
    When [a >= len] or [a < -len], resolving the operand for read and for
    write raises the list's [IndexError] and the machine is unchanged.  A
    negative address from [-len] up to [-1] raises nothing: it is the cell
    [len + a], counted from the end of Memory, which the read returns and
    the write overwrites.  No write changes the number of cells. *)
Theorem indirect_access_bounds vm (target : string) (a : Z) v :
  is_memory target = true ->
  read_address vm target true = Ok (VInt a) ->
  (a < - Z.of_nat (length (memory vm)) \/ Z.of_nat (length (memory vm)) <= a ->
     read_address vm target false = Raise (host_error IndexError) /\
     write_address target v vm = (Raise (host_error IndexError), vm))
  /\ (- Z.of_nat (length (memory vm)) <= a < 0 ->
      exists (k : nat) (cell : value),
        Z.of_nat k = Z.of_nat (length (memory vm)) + a /\
        memory vm !! k = Some cell /\
        read_address vm target false = Ok cell /\
        write_address target v vm
          = (Ok tt, set_memory (<[k := v]> (memory vm)) vm))
  /\ length (memory (snd (write_address target v vm))) = length (memory vm).
Proof.
  intros Hmem Haddr.
  rewrite (read_memory_operand _ _ _ Hmem Haddr).
  rewrite (write_memory_operand _ _ _ v Hmem Haddr).
  split; [|split].
  - intros Hout. unfold getitem, setitem.
    rewrite list_index_outside by assumption. split; reflexivity.
  - intros Hneg. unfold getitem, setitem.
    rewrite list_index_from_end by assumption. cbn [rbind].
    set (k := Z.to_nat (a + Z.of_nat (length (memory vm)))).
    destruct (lookup_lt_is_Some_2 (memory vm) k) as [cell Hcell];
      [unfold k; lia|].
    exists k, cell. rewrite Hcell.
    split; [unfold k; lia | auto].
  - rewrite <- (write_memory_operand _ _ _ v Hmem Haddr).
    apply write_address_length.
Qed.

(** The number of cells of a new machine: three segments of
    [memory_size] cells. *)
Lemma init_memory_length (memory_size : Z) (input : list Z) (output : ostream) :
  0 <= memory_size ->
  Z.of_nat (length (memory (init memory_size input output))) = 3 * memory_size.
Proof.
  intros H. cbn [init memory].
  rewrite !length_app, !length_replicate. lia.
Qed.

(** *** Conditional jumps *)

Lemma truthy_true (z : Z) : truthy z = true <-> z <> 0.
Proof. unfold truthy. destruct (Z.eqb_spec z 0); simpl; split; congruence. Qed.

Lemma truthy_false (z : Z) : truthy z = false <-> z = 0.
Proof. unfold truthy. destruct (Z.eqb_spec z 0); simpl; split; congruence. Qed.

(** C4, as the code has it.  Let [address] resolve to [a], an address
    other than the current IP.  Executing jna sets IP to [a] exactly when
    ZERO or NEG holds; executing jae sets IP to [a] exactly when ZERO
    holds or NEG does not.  The two conditions differ, each being the
    other with NEG negated. *)
Theorem jna_jae_conditions vm (address : string) (a : value) :
  read_address vm address false = Ok a ->
  IP vm <> a ->
  (IP (snd (call (Jna address) vm)) = a <-> ZERO vm <> 0 \/ NEG vm <> 0)
  /\ (IP (snd (call (Jae address) vm)) = a <-> ZERO vm <> 0 \/ NEG vm = 0).
Proof.
  intros Hread Hip. cbn [call]. unfold jna, jae. run. rewrite Hread.
  rewrite <- !truthy_true, <- truthy_false.
  destruct (truthy (ZERO vm)), (truthy (NEG vm)); cbn; intuition congruence.
Qed.

(** *** What every instruction keeps

    A relation between the machine before and after that is reflexive,
    transitive and kept by each elementary update is kept by every method
    body, whether it returns or raises. *)

Section Invariance.

Variable R : VM -> VM -> Prop.

Hypothesis R_refl : forall vm, R vm vm.
Hypothesis R_trans : forall vm1 vm2 vm3, R vm1 vm2 -> R vm2 vm3 -> R vm1 vm3.
Hypothesis R_memory :
  forall vm index v cells,
    setitem (memory vm) index v = Ok cells -> R vm (set_memory cells vm).
Hypothesis R_register : forall r v vm, R vm (setattr r v vm).
Hypothesis R_IP : forall v vm, R vm (set_IP v vm).
Hypothesis R_ZERO : forall vm, R vm (set_ZERO 1 vm).
Hypothesis R_NEG : forall vm, R vm (set_NEG 1 vm).
Hypothesis R_input : forall s vm, R vm (set_input_stream s vm).
Hypothesis R_output : forall s vm, R vm (set_output_stream s vm).

Lemma keeps_pure {A} (a : A) : keeps R (pure a).
Proof. intros vm. apply R_refl. Qed.

Lemma keeps_throw {A} (e : exn) : keeps R (throw (A := A) e).
Proof. intros vm. apply R_refl. Qed.

Lemma keeps_reading {A} (f : VM -> result A) : keeps R (reading f).
Proof. intros vm. apply R_refl. Qed.

Lemma keeps_get {A} (f : VM -> A) : keeps R (get f).
Proof. intros vm. apply R_refl. Qed.

Lemma keeps_modify (f : VM -> VM) :
  (forall vm, R vm (f vm)) -> keeps R (modify f).
Proof. intros Hf vm. apply Hf. Qed.

Lemma keeps_bind {A B} (m : M A) (k : A -> M B) :
  keeps R m -> (forall a, keeps R (k a)) -> keeps R (bind m k).
Proof.
  intros Hm Hk vm. unfold bind.
  specialize (Hm vm). destruct (m vm) as [[a|e] vm']; cbn [snd] in *.
  - eapply R_trans; [exact Hm | apply Hk].
  - exact Hm.
Qed.

Lemma keeps_when (b : bool) (m : M unit) : keeps R m -> keeps R (when b m).
Proof. intros Hm. destruct b; [exact Hm | apply keeps_pure]. Qed.

Lemma keeps_store (index : VM -> value) v : keeps R (store index v).
Proof.
  intros vm. unfold store.
  destruct (setitem _ _ _) eqn:E; cbn [snd]; eauto.
Qed.

Lemma keeps_increment_IP (d : Z) : keeps R (increment IP set_IP d).
Proof.
  apply keeps_bind; [apply keeps_reading|].
  intros v. apply keeps_modify, R_IP.
Qed.

Lemma keeps_increment_SP (d : Z) : keeps R (increment SP set_SP d).
Proof.
  apply keeps_bind; [apply keeps_reading|].
  intros v. apply keeps_modify. intros vm. apply (R_register R_SP).
Qed.

Lemma keeps_write_address (target : string) v : keeps R (write_address target v).
Proof.
  unfold write_address. destruct (as_register target) as [r|].
  - apply keeps_modify, R_register.
  - destruct (is_memory target); [|apply keeps_throw].
    apply keeps_bind; [apply keeps_reading|].
    intros address. apply keeps_store.
Qed.

Lemma keeps_set_flags v : keeps R (set_flags v).
Proof.
  apply keeps_bind; [apply keeps_when, keeps_modify, R_ZERO|].
  intros _. apply keeps_bind; [apply keeps_reading|].
  intros negative. apply keeps_when, keeps_modify, R_NEG.
Qed.

Ltac keeps_step :=
  first
    [ apply keeps_pure | apply keeps_throw | apply keeps_reading
    | apply keeps_get | apply keeps_store | apply keeps_write_address
    | apply keeps_set_flags | apply keeps_increment_IP
    | apply keeps_increment_SP
    | apply keeps_when
    | apply keeps_modify;
      first [ apply R_IP | apply R_input | apply R_output
            | intros ?; apply (R_register R_SP) ]
    | apply keeps_bind; [|intros ?]
    | match goal with
      | |- keeps R (match ?x with _ => _ end) => destruct x
      | |- keeps R (if ?b then _ else _) => destruct b
      end ].

Lemma keeps_call (f : instr) : keeps R (call f).
Proof.
  destruct f; cbn [call];
    unfold move, lea, push, pop, input, output, add, cmp, sub, mul, div,
      fdiv, bit_not, bit_test, bit_and, bit_or, bit_xor, jmp, je, jne, jb,
      jnb, jbe, ja, jna, jae, ret, read;
    repeat keeps_step.
Qed.

Lemma keeps_add_instruction (inst : value) : keeps R (add_instruction inst).
Proof. unfold add_instruction. repeat keeps_step. Qed.

Lemma keeps_next : keeps R next.
Proof.
  unfold next. apply keeps_bind; [apply keeps_reading|].
  intros inst. apply keeps_bind; [apply keeps_increment_IP|].
  intros _. destruct inst; cbn [call_value];
    [apply keeps_throw | apply keeps_throw | apply keeps_call].
Qed.

End Invariance.

Lemma call_flags_rise (f : instr) vm : flags_rise vm (snd (call f vm)).
Proof.
  apply keeps_call; unfold flags_rise; try (intros; cbn; tauto).
  - intros vm1 vm2 vm3 [Z12 N12] [Z23 N23]. intuition congruence.
  - intros r v vm0. destruct r; cbn; tauto.
Qed.

Lemma next_flags_rise vm : flags_rise vm (snd (next vm)).
Proof.
  apply keeps_next; unfold flags_rise; try (intros; cbn; tauto).
  - intros vm1 vm2 vm3 [Z12 N12] [Z23 N23]. intuition congruence.
  - intros r v vm0. destruct r; cbn; tauto.
Qed.

Lemma call_same_layout (f : instr) vm : same_layout vm (snd (call f vm)).
Proof.
  apply keeps_call; unfold same_layout; try (intros; cbn; tauto).
  - intros vm1 vm2 vm3 (-> & -> & -> & ->) H. exact H.
  - intros vm0 index v cells E. cbn. apply setitem_length in E. tauto.
  - intros r v vm0. destruct r; cbn; tauto.
Qed.

(** Appending to the program keeps the layout too, so every machine
    built from [init] by appending and stepping has its first number of
    cells. *)
Lemma add_instruction_same_layout (inst : value) vm :
  same_layout vm (snd (add_instruction inst vm)).
Proof.
  apply keeps_add_instruction; unfold same_layout; try (intros; cbn; tauto).
  - intros vm1 vm2 vm3 (-> & -> & -> & ->) H. exact H.
  - intros vm0 index v cells E. cbn. apply setitem_length in E. tauto.
Qed.

(** Sticky flags: a flag that is 1 before an instruction is 1 after it,
    and so after a step of the engine. *)
Lemma flags_sticky (f : instr) vm :
  (ZERO vm = 1 -> ZERO (snd (call f vm)) = 1)
  /\ (NEG vm = 1 -> NEG (snd (call f vm)) = 1).
Proof.
  destruct (call_flags_rise f vm) as [[-> | ->] [-> | ->]]; auto.
Qed.

Lemma flags_sticky_next vm :
  (ZERO vm = 1 -> ZERO (snd (next vm)) = 1)
  /\ (NEG vm = 1 -> NEG (snd (next vm)) = 1).
Proof.
  destruct (next_flags_rise vm) as [[-> | ->] [-> | ->]]; auto.
Qed.

(** *** Flag-setting instructions, and the two that build a closure *)

Lemma set_flags_state v vm : snd (set_flags v vm) = flags_after v vm.
Proof.
  unfold set_flags, flags_after. run.
  destruct (py_eq_int v 0); cbn [snd];
    destruct (py_lt_int v 0) as [[|]|]; reflexivity.
Qed.

Lemma set_flags_int (n : Z) vm :
  set_flags (VInt n) vm = (Ok tt, flags_after (VInt n) vm).
Proof.
  unfold set_flags, flags_after. run. cbn [py_eq_int py_lt_int].
  destruct (n =? 0), (n <? 0); reflexivity.
Qed.

Lemma cmp_int vm (x y : string) (a b : Z) :
  read_address vm x false = Ok (VInt a) ->
  read_address vm y false = Ok (VInt b) ->
  call (Cmp x y) vm
    = (Ok (Some (VInt (a - b))), flags_after (VInt (a - b)) vm).
Proof.
  intros Hx Hy. cbn [call]. unfold cmp.
  cbv beta iota delta [bind pure reading read]. rewrite Hx, Hy.
  cbn [py_arith]. rewrite set_flags_int. reflexivity.
Qed.

Lemma bit_test_int vm (x y : string) (a b : Z) :
  read_address vm x false = Ok (VInt a) ->
  read_address vm y false = Ok (VInt b) ->
  call (BitTest x y) vm
    = (Ok (Some (VInt (Z.land a b))), flags_after (VInt (Z.land a b)) vm).
Proof.
  intros Hx Hy. cbn [call]. unfold bit_test.
  cbv beta iota delta [bind pure reading read]. rewrite Hx, Hy.
  cbn [py_bitwise]. rewrite set_flags_int. reflexivity.
Qed.

(** [ret] builds two closures and calls neither: nothing is popped and
    IP is not written. *)
Lemma ret_changes_nothing vm : call Ret vm = (Ok None, vm).
Proof. reflexivity. Qed.

(** [sub] on a register stores the closure of [cmp] there, returns it,
    and runs no comparison; the second operand is never resolved. *)
Lemma sub_stores_closure vm (x y : string) (r : register) :
  as_register x = Some r ->
  call (Sub x y) vm
    = (Ok (Some (VFun (Cmp x y))), setattr r (VFun (Cmp x y)) vm).
Proof.
  intros Hx. cbn [call]. unfold sub, write_address. rewrite Hx. reflexivity.
Qed.

(** [bit_and] likewise stores the closure of [bit_test]. *)
Lemma bit_and_stores_closure vm (x y : string) (r : register) :
  as_register x = Some r ->
  call (BitAnd x y) vm = (Ok None, setattr r (VFun (BitTest x y)) vm).
Proof.
  intros Hx. cbn [call]. unfold bit_and, write_address. rewrite Hx. reflexivity.
Qed.

(** A write leaves both flags as they are, and so do [sub] and
    [bit_and], which only write. *)
Lemma write_address_flags (target : string) v vm :
  ZERO (snd (write_address target v vm)) = ZERO vm
  /\ NEG (snd (write_address target v vm)) = NEG vm.
Proof.
  apply (keeps_write_address
           (fun vm vm' => ZERO vm' = ZERO vm /\ NEG vm' = NEG vm));
    try (intros; cbn; tauto).
  - intros vm1 vm2 vm3 [-> ->] H. exact H.
  - intros r v0 vm0. destruct r; cbn; tauto.
Qed.

Lemma sub_flags (x y : string) vm :
  ZERO (snd (call (Sub x y) vm)) = ZERO vm
  /\ NEG (snd (call (Sub x y) vm)) = NEG vm.
Proof.
  cbn [call]. unfold sub. run.
  generalize (write_address_flags x (VFun (Cmp x y)) vm).
  destruct (write_address _ _ _) as [[[]|e] vm']; auto.
Qed.

Lemma bit_and_flags (x y : string) vm :
  ZERO (snd (call (BitAnd x y) vm)) = ZERO vm
  /\ NEG (snd (call (BitAnd x y) vm)) = NEG vm.
Proof.
  cbn [call]. unfold bit_and. run.
  generalize (write_address_flags x (VFun (BitTest x y)) vm).
  destruct (write_address _ _ _) as [[[]|e] vm']; auto.
Qed.

Lemma write_keeps_flags (target : string) v vm :
  flags (snd (write_address target v vm)) = flags vm.
Proof.
  unfold flags. destruct (write_address_flags target v vm) as [-> ->].
  reflexivity.
Qed.

(** Set the flags from [r], then write [r] to [x]: the flags are those
    of [set_flags], whether or not the write succeeds. *)
Lemma flags_then_write {A} (x : string) (r : value) (a : A) vm :
  flags (snd (bind (set_flags r)
                   (fun _ => bind (write_address x r) (fun _ => pure a)) vm))
  = flags (flags_after r vm).
Proof.
  rewrite <- (set_flags_state r vm). run.
  destruct (set_flags r vm) as [[[]|e] vm1]; cbn [snd]; [|reflexivity].
  rewrite <- (write_keeps_flags x r vm1).
  destruct (write_address x r vm1) as [[[]|e] vm2]; reflexivity.
Qed.

Ltac flag_setter Hx Hy Hr :=
  cbn [call];
  unfold add, cmp, mul, div, fdiv, bit_test, bit_or, bit_xor, bit_not;
  cbv beta iota delta [bind reading read];
  rewrite Hx, ?Hy, Hr;
  first [ apply flags_then_write
        | rewrite <- set_flags_state; cbv beta iota delta [bind pure];
          destruct (set_flags _ _) as [[[]|?] ?]; reflexivity ].

(** X9.  The nine instructions that do run their operation set the flags
    from its result: when the operands resolve and the operation yields
    [r], the flags after the instruction are those of [set_flags r],
    whether or not the result can then be written to the destination. *)
Lemma flags_from_result vm (x y : string) (v1 v2 r : value) :
  read_address vm x false = Ok v1 ->
  read_address vm y false = Ok v2 ->
  (py_arith OpAdd v1 v2 = Ok r ->
     flags (snd (call (Add x y) vm)) = flags (flags_after r vm))
  /\ (py_arith OpSub v1 v2 = Ok r ->
     flags (snd (call (Cmp x y) vm)) = flags (flags_after r vm))
  /\ (py_arith OpMul v1 v2 = Ok r ->
     flags (snd (call (Mul x y) vm)) = flags (flags_after r vm))
  /\ (py_arith OpFloorDiv v1 v2 = Ok r ->
     flags (snd (call (Div x y) vm)) = flags (flags_after r vm))
  /\ (py_arith OpTrueDiv v1 v2 = Ok r ->
     flags (snd (call (Fdiv x y) vm)) = flags (flags_after r vm))
  /\ (py_invert v1 = Ok r ->
     flags (snd (call (BitNot x) vm)) = flags (flags_after r vm))
  /\ (py_bitwise Z.land v1 v2 = Ok r ->
     flags (snd (call (BitTest x y) vm)) = flags (flags_after r vm))
  /\ (py_bitwise Z.lor v1 v2 = Ok r ->
     flags (snd (call (BitOr x y) vm)) = flags (flags_after r vm))
  /\ (py_bitwise Z.lxor v1 v2 = Ok r ->
     flags (snd (call (BitXor x y) vm)) = flags (flags_after r vm)).
Proof.
  intros Hx Hy. repeat split; intros Hr; flag_setter Hx Hy Hr.
Qed.

(** ** Further properties of the machine *)

(** *** Registers and operands *)

Lemma as_register_name (r : register) : as_register (register_name r) = Some r.
Proof. destruct r; reflexivity. Qed.

Lemma getattr_setattr (r : register) v vm : getattr (setattr r v vm) r = v.
Proof. destruct r; reflexivity. Qed.

Lemma getattr_setattr_other (r r' : register) v vm :
  r <> r' -> getattr (setattr r v vm) r' = getattr vm r'.
Proof. destruct r, r'; intros H; try reflexivity; contradiction. Qed.

Lemma read_register vm (r : register) :
  read_address vm (register_name r) false = Ok (getattr vm r).
Proof. unfold read_address. rewrite as_register_name. reflexivity. Qed.

Lemma getattr_set_memory l vm (r : register) :
  getattr (set_memory l vm) r = getattr vm r.
Proof. destruct r; reflexivity. Qed.

(** The address of an operand depends on the registers only. *)
Lemma effective_address_set_memory l vm (address : string) :
  effective_address (set_memory l vm) address = effective_address vm address.
Proof.
  unfold effective_address.
  destruct (find _ registers) as [r|]; [|reflexivity].
  rewrite getattr_set_memory. reflexivity.
Qed.

(** X1.  Register round trip: when the source resolves to [v], [move] to
    a register returns normally, changes that register only, and reading
    the register afterwards yields [v]. *)
Theorem move_to_register vm (r : register) (source : string) v :
  read_address vm source false = Ok v ->
  call (Move (register_name r) source) vm = (Ok None, setattr r v vm)
  /\ read_address (setattr r v vm) (register_name r) false = Ok v
  /\ (forall r', r <> r' -> getattr (setattr r v vm) r' = getattr vm r')
  /\ memory (setattr r v vm) = memory vm.
Proof.
  intros Hread. repeat apply conj.
  - cbn [call]. unfold move, write_address. run.
    rewrite Hread, as_register_name. reflexivity.
  - rewrite read_register, getattr_setattr. reflexivity.
  - intros r' Hr. apply getattr_setattr_other, Hr.
  - destruct r; reflexivity.
Qed.

(** X2.  Memory round trip: when a bracketed operand has an integer
    effective address inside the list's index range (negative indices
    included) and the source resolves to [v], [move] to the operand
    returns normally and reading the operand afterwards yields [v]; the
    registers, the flags and the number of cells are as before. *)
Theorem move_to_memory vm (target source : string) (a : Z) v :
  is_memory target = true ->
  read_address vm target true = Ok (VInt a) ->
  - Z.of_nat (length (memory vm)) <= a < Z.of_nat (length (memory vm)) ->
  read_address vm source false = Ok v ->
  exists vm',
    call (Move target source) vm = (Ok None, vm')
    /\ read_address vm' target false = Ok v
    /\ (forall r, getattr vm' r = getattr vm r)
    /\ flags vm' = flags vm
    /\ length (memory vm') = length (memory vm).
Proof.
  intros Hmem Haddr Hrange Hread.
  assert (Hk : exists k, list_index (length (memory vm)) a = Ok k
                         /\ (k < length (memory vm))%nat).
  { destruct (Z.lt_ge_cases a 0).
    - rewrite list_index_from_end by lia. eexists; split; [reflexivity|lia].
    - rewrite list_index_in_range by lia. eexists; split; [reflexivity|lia]. }
  destruct Hk as (k & Hk & Hlt).
  exists (set_memory (<[k := v]> (memory vm)) vm).
  assert (Hw : write_address target v vm
               = (Ok tt, set_memory (<[k := v]> (memory vm)) vm)).
  { rewrite (write_memory_operand _ _ _ v Hmem Haddr).
    unfold setitem. rewrite Hk. reflexivity. }
  repeat apply conj.
  - cbn [call]. unfold move. run. rewrite Hread, Hw. reflexivity.
  - apply address_of_memory_operand in Haddr; [|assumption].
    unfold read_address.
    rewrite (is_memory_not_register _ Hmem), Hmem.
    rewrite effective_address_set_memory, Haddr.
    cbn [rbind memory set_memory]. unfold getitem.
    rewrite length_insert, Hk. cbn [rbind].
    rewrite list_lookup_insert_eq by assumption. reflexivity.
  - intros r. apply getattr_set_memory.
  - reflexivity.
  - cbn [memory set_memory]. apply length_insert.
Qed.

(** X3.  [lea] takes the address of a bracketed operand only: for a
    register name or an immediate as second operand it raises
    [TypeError('NO ADDRESS')] and the machine is unchanged, whatever the
    destination. *)
Theorem lea_needs_memory_operand vm (destination variable : string) :
  is_memory variable = false ->
  call (Lea destination variable) vm = (Raise NO_ADDRESS, vm).
Proof.
  intros Hmem. cbn [call]. unfold lea, read_address. run.
  destruct (as_register variable); [reflexivity|].
  rewrite Hmem. reflexivity.
Qed.

Lemma bracketed_register vm (r : register) (a : Z) :
  getattr vm r = VInt a ->
  is_memory ("[" +:+ register_name r +:+ "]") = true
  /\ read_address vm ("[" +:+ register_name r +:+ "]") true = Ok (VInt (a + 0)).
Proof.
  intros Hr. split; [destruct r; reflexivity|].
  unfold read_address.
  replace (as_register ("[" +:+ register_name r +:+ "]")) with (@None register)
    by (destruct r; reflexivity).
  replace (is_memory ("[" +:+ register_name r +:+ "]")) with true
    by (destruct r; reflexivity).
  replace (effective_address vm
             (PyStr.strip_brackets ("[" +:+ register_name r +:+ "]")))
    with (py_arith OpAdd (getattr vm r) (VInt 0))
    by (destruct r; reflexivity).
  rewrite Hr. reflexivity.
Qed.

(** X4.  [lea] makes a pointer: after [lea R, operand], where the
    operand has an integer effective address, the operand [[R]] reads
    what the operand itself read before, error or value alike. *)
Theorem lea_then_dereference vm (r : register) (variable : string) (a : Z) :
  is_memory variable = true ->
  read_address vm variable true = Ok (VInt a) ->
  exists vm',
    call (Lea (register_name r) variable) vm = (Ok None, vm')
    /\ getattr vm' r = VInt a
    /\ read_address vm' ("[" +:+ register_name r +:+ "]") false
       = read_address vm variable false.
Proof.
  intros Hmem Haddr. exists (setattr r (VInt a) vm).
  assert (Hr : getattr (setattr r (VInt a) vm) r = VInt a)
    by apply getattr_setattr.
  destruct (bracketed_register _ _ _ Hr) as [Hb Hba].
  repeat apply conj.
  - cbn [call]. unfold lea, write_address. run.
    rewrite Haddr, as_register_name. reflexivity.
  - exact Hr.
  - rewrite (read_memory_operand _ _ _ Hb Hba).
    rewrite (read_memory_operand _ _ _ Hmem Haddr).
    rewrite Z.add_0_r. destruct r; reflexivity.
Qed.

(** *** More on the stack *)

Lemma pop_into_register vm (sp : Z) v (r : register) :
  SP vm = VInt sp ->
  0 <= sp ->
  memory vm !! Z.to_nat sp = Some v ->
  pop (Some (register_name r)) vm
    = (Ok (Some v), setattr r v (set_SP (VInt (sp + 1)) vm)).
Proof.
  intros Hsp Hpos Hcell. unfold pop, write_address. run.
  rewrite Hsp, (getitem_in_range _ _ v) by assumption.
  rewrite as_register_name. reflexivity.
Qed.

Lemma push_refused vm (sp : Z) (target : string) :
  SP vm = VInt sp ->
  sp - 1 = SS vm ->
  push target vm
    = (Raise (Exn MemoryError (Some "Insufficient stack space")),
       set_SP (VInt (SS vm)) vm).
Proof.
  intros Hsp Hfull. unfold push. run.
  rewrite Hsp. cbn [py_arith py_eq_int set_SP SP SS].
  rewrite Hfull, Z.eqb_refl. reflexivity.
Qed.

(** X5.  A value goes through the stack into any register: when a push
    lands on a cell of Memory other than the segment base and its operand
    resolves to [v], then [push] followed by [pop R] returns [v] and
    leaves [v] in [R], for each of the six registers.  SP is back at its
    value before the push unless [R] is SP itself, which then holds [v]. *)
Theorem push_then_pop_register vm (sp : Z) (target : string) v (r : register) :
  SP vm = VInt sp ->
  sp - 1 <> SS vm ->
  0 <= sp - 1 < Z.of_nat (length (memory vm)) ->
  read_address (set_SP (VInt (sp - 1)) vm) target false = Ok v ->
  exists vm1 vm2,
    call (Push target) vm = (Ok None, vm1)
    /\ call (Pop (Some (register_name r))) vm1 = (Ok (Some v), vm2)
    /\ getattr vm2 r = v
    /\ (r <> R_SP -> SP vm2 = SP vm).
Proof.
  intros Hsp Hfull Hin Hread. cbn [call].
  rewrite (push_stores vm sp target v) by assumption.
  set (vm1 := set_memory _ _).
  assert (Hpop := pop_into_register vm1 (sp - 1) v r eq_refl).
  exists vm1, (setattr r v (set_SP (VInt (sp - 1 + 1)) vm1)).
  repeat apply conj.
  - reflexivity.
  - apply Hpop; [lia|]. unfold vm1. cbn [memory set_memory].
    apply list_lookup_insert_eq. lia.
  - apply getattr_setattr.
  - intros Hr. rewrite Hsp.
    replace sp with (sp - 1 + 1) at 2 by lia.
    destruct r; try reflexivity. contradiction.
Qed.

(** X6.  The stack guard stops one push only.  It compares the new SP
    with the segment base for equality, and the refused push leaves SP
    on the base; so the push after a refused one passes the guard and
    writes below the stack segment, into the cell under the base. *)
Theorem push_after_refused_push vm (sp : Z) (t1 t2 : string) v :
  SP vm = VInt sp ->
  sp - 1 = SS vm ->
  1 <= SS vm <= Z.of_nat (length (memory vm)) ->
  read_address (set_SP (VInt (SS vm - 1)) vm) t2 false = Ok v ->
  exists vm1 vm2,
    call (Push t1) vm
      = (Raise (Exn MemoryError (Some "Insufficient stack space")), vm1)
    /\ call (Push t2) vm1 = (Ok None, vm2)
    /\ SP vm2 = VInt (SS vm - 1)
    /\ memory vm2 !! Z.to_nat (SS vm - 1) = Some v.
Proof.
  intros Hsp Hfull Hss Hread. cbn [call].
  rewrite (push_refused vm sp t1 Hsp Hfull).
  set (vm1 := set_SP (VInt (SS vm)) vm).
  assert (P := push_stores vm1 (SS vm) t2 v eq_refl).
  cbn [SS memory set_SP vm1] in P.
  specialize (P ltac:(lia) ltac:(lia) Hread).
  eexists vm1, _. repeat apply conj.
  - reflexivity.
  - exact P.
  - reflexivity.
  - cbn [memory set_memory]. apply list_lookup_insert_eq. lia.
Qed.

(** *** What no instruction does *)

(** X7.  No flag is ever reset: after any instruction, and after any step
    of the engine, whether it returned or raised, each of ZERO and NEG
    either has its former value or is 1. *)
Theorem flags_never_reset (f : instr) vm :
  flags_rise vm (snd (call f vm)) /\ flags_rise vm (snd (next vm)).
Proof. split; [apply call_flags_rise | apply next_flags_rise]. Qed.

Lemma next_same_layout vm : same_layout vm (snd (next vm)).
Proof.
  apply keeps_next; unfold same_layout; try (intros; cbn; tauto).
  - intros vm1 vm2 vm3 (-> & -> & -> & ->) H. exact H.
  - intros vm0 index v cells E. cbn. apply setitem_length in E. tauto.
  - intros r v vm0. destruct r; cbn; tauto.
Qed.

(** X8.  The layout is fixed for the life of a machine: no instruction,
    no step of the engine and no appended instruction changes the number
    of Memory cells or the segment bases CS, DS and SS, whether it
    returned or raised. *)
Theorem layout_never_changes (f : instr) (inst : value) vm :
  same_layout vm (snd (call f vm))
  /\ same_layout vm (snd (next vm))
  /\ same_layout vm (snd (add_instruction inst vm)).
Proof.
  split; [apply call_same_layout|].
  split; [apply next_same_layout | apply add_instruction_same_layout].
Qed.

(** *** Comparisons and conditional jumps *)

Lemma read_address_set_ZERO (z : Z) vm (target : string) (b : bool) :
  read_address (set_ZERO z vm) target b = read_address vm target b.
Proof.
  unfold read_address, effective_address.
  destruct (as_register target) as [r|]; [destruct r; reflexivity|].
  destruct (is_memory target); [|reflexivity].
  destruct (find _ registers) as [r|]; [destruct r; reflexivity|reflexivity].
Qed.

Lemma read_address_set_NEG (z : Z) vm (target : string) (b : bool) :
  read_address (set_NEG z vm) target b = read_address vm target b.
Proof.
  unfold read_address, effective_address.
  destruct (as_register target) as [r|]; [destruct r; reflexivity|].
  destruct (is_memory target); [|reflexivity].
  destruct (find _ registers) as [r|]; [destruct r; reflexivity|reflexivity].
Qed.

(** Operands do not see the flags. *)
Lemma read_address_flags_after v vm (target : string) (b : bool) :
  read_address (flags_after v vm) target b = read_address vm target b.
Proof.
  unfold flags_after.
  destruct (py_lt_int v 0) as [[|]|]; destruct (py_eq_int v 0);
    rewrite ?read_address_set_NEG, ?read_address_set_ZERO; reflexivity.
Qed.

Lemma jump_taken vm (address : string) (t : value) :
  read_address vm address false = Ok t ->
  IP vm <> t ->
  (IP (snd (call (Je address) vm)) = t <-> truthy (ZERO vm) = true)
  /\ (IP (snd (call (Jne address) vm)) = t <-> truthy (ZERO vm) = false)
  /\ (IP (snd (call (Jb address) vm)) = t
      <-> truthy (ZERO vm) = false /\ truthy (NEG vm) = true)
  /\ (IP (snd (call (Jnb address) vm)) = t
      <-> truthy (ZERO vm) = true \/ truthy (NEG vm) = false)
  /\ (IP (snd (call (Jbe address) vm)) = t
      <-> truthy (ZERO vm) = true \/ truthy (NEG vm) = true)
  /\ (IP (snd (call (Ja address) vm)) = t
      <-> truthy (ZERO vm) = false /\ truthy (NEG vm) = false)
  /\ (IP (snd (call (Jna address) vm)) = t
      <-> truthy (ZERO vm) = true \/ truthy (NEG vm) = true)
  /\ (IP (snd (call (Jae address) vm)) = t
      <-> truthy (ZERO vm) = true \/ truthy (NEG vm) = false).
Proof.
  intros Hread Hip. cbn [call].
  unfold je, jne, jb, jnb, jbe, ja, jna, jae. run. rewrite Hread.
  destruct (truthy (ZERO vm)), (truthy (NEG vm)); cbn;
    intuition congruence.
Qed.

Lemma flags_after_compare vm (a b : Z) :
  ZERO vm = 0 -> NEG vm = 0 ->
  truthy (ZERO (flags_after (VInt (a - b)) vm)) = (a =? b)
  /\ truthy (NEG (flags_after (VInt (a - b)) vm)) = (a <? b).
Proof.
  intros HZ HN. unfold flags_after, truthy. cbn [py_eq_int py_lt_int].
  destruct (Z.eqb_spec (a - b) 0), (Z.ltb_spec (a - b) 0),
    (Z.eqb_spec a b), (Z.ltb_spec a b); try lia;
    cbn; rewrite ?HZ, ?HN; split; reflexivity.
Qed.

(** X10.  Comparisons work on clear flags.  On a machine whose flags are
    both 0, after [cmp x, y] on integers [a] and [b] each conditional
    jump to an address other than the current IP is taken exactly when
    its relation holds between [a] and [b]: je for =, jne for <>, jb for
    <, jnb and jae for >=, jbe and jna for <=, ja for >. *)
Theorem compare_then_jump vm (x y address : string) (a b : Z) (t : value) :
  ZERO vm = 0 -> NEG vm = 0 ->
  read_address vm x false = Ok (VInt a) ->
  read_address vm y false = Ok (VInt b) ->
  read_address vm address false = Ok t ->
  IP vm <> t ->
  exists vm',
    call (Cmp x y) vm = (Ok (Some (VInt (a - b))), vm')
    /\ (IP (snd (call (Je address) vm')) = t <-> a = b)
    /\ (IP (snd (call (Jne address) vm')) = t <-> a <> b)
    /\ (IP (snd (call (Jb address) vm')) = t <-> a < b)
    /\ (IP (snd (call (Jnb address) vm')) = t <-> b <= a)
    /\ (IP (snd (call (Jbe address) vm')) = t <-> a <= b)
    /\ (IP (snd (call (Ja address) vm')) = t <-> b < a)
    /\ (IP (snd (call (Jna address) vm')) = t <-> a <= b)
    /\ (IP (snd (call (Jae address) vm')) = t <-> b <= a).
Proof.
  intros HZ HN Hx Hy Haddr Hip.
  exists (flags_after (VInt (a - b)) vm).
  split; [apply cmp_int; assumption|].
  assert (Hip' : IP (flags_after (VInt (a - b)) vm) <> t).
  { unfold flags_after. cbn [py_eq_int py_lt_int].
    destruct (a - b =? 0), (a - b <? 0); exact Hip. }
  rewrite <- (read_address_flags_after (VInt (a - b))) in Haddr.
  destruct (jump_taken _ _ _ Haddr Hip')
    as (J1 & J2 & J3 & J4 & J5 & J6 & J7 & J8).
  destruct (flags_after_compare vm a b HZ HN) as [EZ EN].
  rewrite EZ in *. rewrite EN in *.
  rewrite J1, J2, J3, J4, J5, J6, J7, J8.
  destruct (Z.eqb_spec a b), (Z.ltb_spec a b);
    repeat split; intros; try lia; try congruence; try tauto;
    try (left; reflexivity); try (right; reflexivity);
    intuition (try lia; try congruence).
Qed.

(** X11.  The conditional jumps come in complementary pairs: for a
    target other than the current IP, exactly one of je and jne is taken,
    and likewise for jb and jnb, jb and jae, ja and jna, ja and jbe.
    jbe and jna are one instruction under two names, and so are jnb and
    jae. *)
Theorem jumps_are_complementary vm (address : string) (t : value) :
  read_address vm address false = Ok t ->
  IP vm <> t ->
  (IP (snd (call (Je address) vm)) = t
   <-> IP (snd (call (Jne address) vm)) <> t)
  /\ (IP (snd (call (Jb address) vm)) = t
      <-> IP (snd (call (Jnb address) vm)) <> t)
  /\ (IP (snd (call (Jb address) vm)) = t
      <-> IP (snd (call (Jae address) vm)) <> t)
  /\ (IP (snd (call (Ja address) vm)) = t
      <-> IP (snd (call (Jna address) vm)) <> t)
  /\ (IP (snd (call (Ja address) vm)) = t
      <-> IP (snd (call (Jbe address) vm)) <> t)
  /\ call (Jbe address) vm = call (Jna address) vm
  /\ call (Jnb address) vm = call (Jae address) vm.
Proof.
  intros Hread Hip.
  destruct (jump_taken _ _ _ Hread Hip)
    as (J1 & J2 & J3 & J4 & J5 & J6 & J7 & J8).
  rewrite J1, J2, J3, J4, J5, J6, J7, J8.
  destruct (truthy (ZERO vm)), (truthy (NEG vm));
    repeat split; intros; try reflexivity; try congruence;
    intuition congruence.
Qed.

(** X12.  Comparisons accumulate.  From clear flags, [cmp] on integers
    [a < b] sets NEG; a second [cmp] on integers [c > d] leaves NEG at 1,
    so after it ja is not taken and jb is taken, although the operands
    last compared are in the opposite order. *)
Theorem second_comparison_keeps_NEG vm (x y x' y' address : string)
    (a b c d : Z) (t : value) :
  ZERO vm = 0 -> NEG vm = 0 ->
  read_address vm x false = Ok (VInt a) ->
  read_address vm y false = Ok (VInt b) ->
  read_address vm x' false = Ok (VInt c) ->
  read_address vm y' false = Ok (VInt d) ->
  read_address vm address false = Ok t ->
  IP vm <> t ->
  a < b -> d < c ->
  exists vm1 vm2,
    call (Cmp x y) vm = (Ok (Some (VInt (a - b))), vm1)
    /\ call (Cmp x' y') vm1 = (Ok (Some (VInt (c - d))), vm2)
    /\ ZERO vm2 = 0 /\ NEG vm2 = 1
    /\ IP (snd (call (Ja address) vm2)) <> t
    /\ IP (snd (call (Jb address) vm2)) = t.
Proof.
  intros HZ HN Hx Hy Hx' Hy' Haddr Hip Hab Hdc.
  set (vm1 := flags_after (VInt (a - b)) vm).
  set (vm2 := flags_after (VInt (c - d)) vm1).
  assert (E1 : vm1 = set_NEG 1 vm).
  { unfold vm1, flags_after. cbn [py_eq_int py_lt_int].
    destruct (Z.eqb_spec (a - b) 0), (Z.ltb_spec (a - b) 0);
      try lia; reflexivity. }
  assert (E2 : vm2 = vm1).
  { unfold vm2, flags_after. cbn [py_eq_int py_lt_int].
    destruct (Z.eqb_spec (c - d) 0), (Z.ltb_spec (c - d) 0);
      try lia; reflexivity. }
  exists vm1, vm2. split; [apply cmp_int; assumption|].
  split.
  { apply cmp_int; unfold vm1; rewrite read_address_flags_after;
      assumption. }
  rewrite E2, E1. cbn [ZERO NEG set_NEG].
  split; [exact HZ|]. split; [reflexivity|].
  assert (Haddr' : read_address (set_NEG 1 vm) address false = Ok t)
    by (rewrite read_address_set_NEG; exact Haddr).
  destruct (jump_taken (set_NEG 1 vm) _ _ Haddr' Hip)
    as (_ & _ & J3 & _ & _ & J6 & _ & _).
  cbn [ZERO NEG set_NEG] in J3, J6. rewrite HZ in J3, J6.
  split.
  - rewrite J6. cbn. intros [_ H]. discriminate.
  - apply J3. split; reflexivity.
Qed.

(** *** Arithmetic on a register *)

Ltac on_register Hr Hy :=
  cbn [call];
  unfold add, mul, div, bit_or, bit_xor, bit_not, write_address;
  cbv beta iota delta [bind pure reading read];
  rewrite read_register, Hr, ?Hy;
  cbn [py_arith py_bitwise py_invert];
  rewrite ?set_flags_int, ?as_register_name.

(** X13.  With the integer [a] in register [R] and a second operand
    that resolves to the integer [b], [add], [mul], [bit_or], [bit_xor]
    and [bit_not] leave in [R] the sum, the product, the bitwise or, the
    bitwise exclusive or and the complement [-a - 1], with the flags set
    from that result; [add] alone returns its result.  For [b <> 0],
    [div] leaves the quotient rounded toward minus infinity: [q] with
    [b*q <= a < b*q + b] for a positive [b] and [b*q + b < a <= b*q] for
    a negative one. *)
Theorem arithmetic_on_register vm (r : register) (y : string) (a b : Z) :
  getattr vm r = VInt a ->
  read_address vm y false = Ok (VInt b) ->
  call (Add (register_name r) y) vm
    = (Ok (Some (VInt (a + b))),
       setattr r (VInt (a + b)) (flags_after (VInt (a + b)) vm))
  /\ call (Mul (register_name r) y) vm
     = (Ok None, setattr r (VInt (a * b)) (flags_after (VInt (a * b)) vm))
  /\ call (BitOr (register_name r) y) vm
     = (Ok None,
        setattr r (VInt (Z.lor a b)) (flags_after (VInt (Z.lor a b)) vm))
  /\ call (BitXor (register_name r) y) vm
     = (Ok None,
        setattr r (VInt (Z.lxor a b)) (flags_after (VInt (Z.lxor a b)) vm))
  /\ call (BitNot (register_name r)) vm
     = (Ok None,
        setattr r (VInt (- a - 1)) (flags_after (VInt (- a - 1)) vm))
  /\ (b <> 0 ->
      exists q : Z,
        call (Div (register_name r) y) vm
          = (Ok None, setattr r (VInt q) (flags_after (VInt q) vm))
        /\ (0 < b -> b * q <= a < b * q + b)
        /\ (b < 0 -> b * q + b < a <= b * q)).
Proof.
  intros Hr Hy. repeat apply conj.
  - on_register Hr Hy. reflexivity.
  - on_register Hr Hy. reflexivity.
  - on_register Hr Hy. reflexivity.
  - on_register Hr Hy. reflexivity.
  - on_register Hr Hy. unfold Z.lnot, Z.pred.
    replace (- a + -1) with (- a - 1) by lia. reflexivity.
  - intros Hb. exists (a / b). repeat apply conj.
    + on_register Hr Hy.
      destruct (Z.eqb_spec b 0) as [E|_]; [contradiction|].
      rewrite set_flags_int. reflexivity.
    + intros Hpos. pose proof (Z.mod_pos_bound a b Hpos).
      pose proof (Z.div_mod a b Hb). lia.
    + intros Hneg. pose proof (Z.mod_neg_bound a b Hneg).
      pose proof (Z.div_mod a b Hb). lia.
Qed.

(** X14.  Division by the integer zero: when the operands resolve to
    integers and the second is 0, [div] and [fdiv] raise
    [ZeroDivisionError] before the flags or the destination are touched;
    the machine is unchanged. *)
Theorem division_by_zero vm (x y : string) (a : Z) :
  read_address vm x false = Ok (VInt a) ->
  read_address vm y false = Ok (VInt 0) ->
  call (Div x y) vm = (Raise (host_error ZeroDivisionError), vm)
  /\ call (Fdiv x y) vm = (Raise (host_error ZeroDivisionError), vm).
Proof.
  intros Hx Hy. split; cbn [call]; unfold div, fdiv; run;
    rewrite Hx, Hy; reflexivity.
Qed.

(** *** Building a program and stepping through it *)

Lemma add_instruction_at vm (a : Z) (inst : value) :
  IP vm = VInt a ->
  0 <= a < Z.of_nat (length (memory vm)) ->
  add_instruction inst vm
    = (Ok tt,
       set_IP (VInt (a + 1))
              (set_memory (<[Z.to_nat a := inst]> (memory vm)) vm)).
Proof.
  intros Hip Hin. unfold add_instruction. run.
  rewrite Hip, setitem_in_range by assumption.
  cbn [IP set_memory]. rewrite Hip. reflexivity.
Qed.

Lemma next_calls vm (a : Z) (cell : value) :
  IP vm = VInt a ->
  getitem (memory vm) (VInt a) = Ok cell ->
  next vm = call_value cell (set_IP (VInt (a + 1)) vm).
Proof.
  intros Hip Hcell. unfold next. run. rewrite Hip, Hcell. reflexivity.
Qed.

(** X15.  Append, then step: appending an instruction at an IP inside
    Memory stores it there and moves IP one cell on; setting IP back and
    stepping runs exactly that instruction, on the machine as the append
    left it. *)
Theorem append_then_step vm (a : Z) (f : instr) :
  IP vm = VInt a ->
  0 <= a < Z.of_nat (length (memory vm)) ->
  exists vm1,
    add_instruction (VFun f) vm = (Ok tt, vm1)
    /\ IP vm1 = VInt (a + 1)
    /\ getitem (memory vm1) (VInt a) = Ok (VFun f)
    /\ next (set_IP (VInt a) vm1) = call f vm1.
Proof.
  intros Hip Hin. eexists. split; [apply add_instruction_at; eassumption|].
  assert (Hcell : getitem (<[Z.to_nat a := VFun f]> (memory vm)) (VInt a)
                  = Ok (VFun f)).
  { apply getitem_in_range; [lia|]. apply list_lookup_insert_eq. lia. }
  repeat apply conj; [reflexivity | exact Hcell |].
  rewrite (next_calls _ a (VFun f)); [reflexivity | reflexivity | exact Hcell].
Qed.

(** X16.  Appended instructions lie in sequence: two appends from an IP
    [a] with both cells inside Memory put the first value at [a], the
    second at [a + 1], leave IP at [a + 2] and change no other cell.
    The cells need not be in the code segment. *)
Theorem append_twice vm (a : Z) (i1 i2 : value) :
  IP vm = VInt a ->
  0 <= a ->
  a + 1 < Z.of_nat (length (memory vm)) ->
  exists vm1 vm2,
    add_instruction i1 vm = (Ok tt, vm1)
    /\ add_instruction i2 vm1 = (Ok tt, vm2)
    /\ IP vm2 = VInt (a + 2)
    /\ memory vm2 !! Z.to_nat a = Some i1
    /\ memory vm2 !! Z.to_nat (a + 1) = Some i2
    /\ (forall k : nat,
          k <> Z.to_nat a -> k <> Z.to_nat (a + 1) ->
          memory vm2 !! k = memory vm !! k).
Proof.
  intros Hip Ha Hin.
  set (vm1 := set_IP (VInt (a + 1))
                (set_memory (<[Z.to_nat a := i1]> (memory vm)) vm)).
  assert (Hlen : length (memory vm1) = length (memory vm))
    by apply length_insert.
  exists vm1. eexists. split; [apply add_instruction_at; [exact Hip|lia]|].
  split; [apply (add_instruction_at vm1 (a + 1) i2 eq_refl); rewrite Hlen; lia|].
  repeat apply conj.
  - cbn [IP set_IP]. f_equal. lia.
  - cbn [memory set_memory set_IP vm1].
    rewrite list_lookup_insert_ne by lia.
    apply list_lookup_insert_eq. lia.
  - cbn [memory set_memory set_IP vm1].
    apply list_lookup_insert_eq. rewrite length_insert. lia.
  - intros k K1 K2. cbn [memory set_memory set_IP vm1].
    rewrite !list_lookup_insert_ne by congruence. reflexivity.
Qed.

(** X17.  An append at an IP at or past the end of Memory raises the
    list's [IndexError] and changes nothing, IP included: a program
    cannot grow Memory. *)
Theorem append_outside_memory vm (a : Z) (inst : value) :
  IP vm = VInt a ->
  Z.of_nat (length (memory vm)) <= a ->
  add_instruction inst vm = (Raise (host_error IndexError), vm).
Proof.
  intros Hip Hout. unfold add_instruction. run. rewrite Hip.
  unfold setitem. rewrite list_index_outside by lia. reflexivity.
Qed.

(** *** A new machine *)

Lemma new_machine_cells (n : Z) (input : list Z) (output : ostream) (i : Z) :
  (0 <= i < n ->
     getitem (memory (init n input output)) (VInt i) = Ok (VFun Unavailable))
  /\ (n <= i < 3 * n ->
      getitem (memory (init n input output)) (VInt i) = Ok (VInt 0)).
Proof.
  split; intros Hi; (apply getitem_in_range; [lia|]); cbn [init memory].
  - rewrite lookup_app_l by (rewrite length_replicate; lia).
    apply lookup_replicate_2. lia.
  - rewrite lookup_app_r by (rewrite length_replicate; lia).
    rewrite length_replicate.
    destruct (Z.lt_ge_cases i (2 * n)).
    + rewrite lookup_app_l by (rewrite length_replicate; lia).
      apply lookup_replicate_2. lia.
    + rewrite lookup_app_r by (rewrite length_replicate; lia).
      rewrite length_replicate. apply lookup_replicate_2. lia.
Qed.

(** X18.  Construction: for a size [n >= 0] the new machine has [3n]
    cells, the segment bases 0, [n] and [2n], SP one past the last cell,
    BP on the last cell, IP at 0, zero registers and clear flags; the
    [n] code cells hold the closure that raises and the [2n] data and
    stack cells hold 0. *)
Theorem new_machine_layout (n : Z) (input : list Z) (output : ostream) :
  0 <= n ->
  Z.of_nat (length (memory (init n input output))) = 3 * n
  /\ CS (init n input output) = 0
  /\ DS (init n input output) = n
  /\ SS (init n input output) = 2 * n
  /\ SP (init n input output) = VInt (3 * n)
  /\ BP (init n input output) = VInt (3 * n - 1)
  /\ IP (init n input output) = VInt 0
  /\ (forall r, getattr (init n input output) r
                = match r with
                  | R_SP => VInt (3 * n)
                  | R_BP => VInt (3 * n - 1)
                  | _ => VInt 0
                  end)
  /\ flags (init n input output) = (0, 0)
  /\ (forall i, 0 <= i < n ->
        getitem (memory (init n input output)) (VInt i) = Ok (VFun Unavailable))
  /\ (forall i, n <= i < 3 * n ->
        getitem (memory (init n input output)) (VInt i) = Ok (VInt 0)).
Proof.
  intros Hn.
  assert (Hlen : Z.of_nat (length (memory (init n input output))) = 3 * n)
    by (apply init_memory_length, Hn).
  assert (HSP : SP (init n input output) = VInt (3 * n))
    by (rewrite <- Hlen; reflexivity).
  assert (HBP : BP (init n input output) = VInt (3 * n - 1))
    by (rewrite <- Hlen; reflexivity).
  repeat apply conj; try assumption; try reflexivity.
  - cbn [init DS]. rewrite length_replicate. lia.
  - cbn [init SS]. rewrite length_app, !length_replicate. lia.
  - intros r. destruct r; try reflexivity; assumption.
  - intros i. apply new_machine_cells.
  - intros i. apply new_machine_cells.
Qed.

(** X19.  Stepping a machine that holds no program: for a positive size
    the step raises [TypeError('Empty')] with IP already advanced to 1;
    for a size of zero or less there is no cell to fetch, the step
    raises the list's [IndexError] and IP stays 0. *)
Theorem step_on_new_machine (n : Z) (input : list Z) (output : ostream) :
  (0 < n ->
     next (init n input output)
     = (Raise (Exn TypeError (Some "Empty")),
        set_IP (VInt 1) (init n input output)))
  /\ (n <= 0 ->
     next (init n input output)
     = (Raise (host_error IndexError), init n input output)).
Proof.
  split; intros Hn.
  - destruct (new_machine_cells n input output 0) as [Hcode _].
    rewrite (next_calls (init n input output) 0 (VFun Unavailable) eq_refl
               (Hcode ltac:(lia))).
    reflexivity.
  - unfold next. run. cbn [init IP memory]. unfold getitem.
    rewrite list_index_outside; [reflexivity|].
    right. rewrite !length_app, !length_replicate. lia.
Qed.

(** *** Input and output *)

Lemma input_register vm (r : register) (b : Z) (rest : list Z) :
  input_stream vm = b :: rest ->
  call (Input (register_name r)) vm
    = (Ok None, setattr r (VInt b) (set_input_stream rest vm)).
Proof.
  intros Hin. cbn [call]. unfold input, write_address. run.
  rewrite Hin, as_register_name. reflexivity.
Qed.

Lemma chr_in_range (c : Z) : 0 <= c < 1114112 -> chr (VInt c) = Ok c.
Proof.
  intros Hc. unfold chr.
  assert (E1 : (c <? - 2 ^ 31) = false)
    by (apply Z.ltb_ge; change (2 ^ 31) with 2147483648; lia).
  assert (E2 : (2 ^ 31 <=? c) = false)
    by (apply Z.leb_gt; change (2 ^ 31) with 2147483648; lia).
  assert (E3 : (0 <=? c) = true) by (apply Z.leb_le; lia).
  assert (E4 : (c <? 1114112) = true) by (apply Z.ltb_lt; lia).
  rewrite E1, E2, E3, E4. reflexivity.
Qed.

Lemma output_text vm (readable : string) (c : Z) (written : list Z) :
  read_address vm readable false = Ok (VInt c) ->
  0 <= c < 1114112 ->
  output_stream vm = TextIO written ->
  call (Output readable) vm
    = (Ok None, set_output_stream (TextIO (written ++ [c])) vm).
Proof.
  intros Hread Hc Hout. cbn [call]. unfold output. run.
  rewrite Hread, (chr_in_range c Hc), Hout. reflexivity.
Qed.

(** X20.  The default streams serve no instruction.  On any machine
    whose sink is the default [BytesIO], [output] never writes: whatever
    its operand, it raises and the machine is unchanged.  On any machine
    whose source is at its end, as the default one is from the start,
    [input] raises [TypeError] and the machine is unchanged. *)
Theorem default_streams_raise vm (operand : string) :
  (output_stream vm = BytesIO ->
     exists e, call (Output operand) vm = (Raise e, vm))
  /\ (input_stream vm = [] ->
      call (Input operand) vm = (Raise (host_error TypeError), vm)).
Proof.
  split.
  - intros Hout. cbn [call]. unfold output. run.
    destruct (read_address vm operand false) as [v|e]; [|eauto].
    destruct (chr v) as [c|e]; [|eauto].
    rewrite Hout. eauto.
  - intros Hin. cbn [call]. unfold input. run. rewrite Hin. reflexivity.
Qed.

(** X21.  Echo: with a byte [b] waiting in the source, a text sink, and
    a character code [b] that [chr] accepts, [input R] followed by
    [output R] consumes exactly that byte, leaves [b] in [R] and appends
    the one character [b] to what was written. *)
Theorem input_then_output vm (r : register) (b : Z) (rest written : list Z) :
  input_stream vm = b :: rest ->
  output_stream vm = TextIO written ->
  0 <= b < 1114112 ->
  exists vm1 vm2,
    call (Input (register_name r)) vm = (Ok None, vm1)
    /\ call (Output (register_name r)) vm1 = (Ok None, vm2)
    /\ getattr vm2 r = VInt b
    /\ input_stream vm2 = rest
    /\ output_stream vm2 = TextIO (written ++ [b]).
Proof.
  intros Hin Hout Hb.
  rewrite (input_register vm r b rest Hin).
  set (vm1 := setattr r (VInt b) (set_input_stream rest vm)).
  assert (Hread : read_address vm1 (register_name r) false = Ok (VInt b)).
  { rewrite read_register. unfold vm1. rewrite getattr_setattr. reflexivity. }
  assert (Hout1 : output_stream vm1 = TextIO written)
    by (destruct r; exact Hout).
  eexists vm1, _. split; [reflexivity|].
  split; [apply (output_text vm1 _ b written Hread Hb Hout1)|].
  repeat apply conj.
  - destruct r; reflexivity.
  - destruct r; reflexivity.
  - reflexivity.
Qed.

(** *** The program of [main.py] *)

Lemma bind_ok {A B} (m : M A) (k : A -> M B) vm (a : A) vm' :
  m vm = (Ok a, vm') -> bind m k vm = k a vm'.
Proof. intros H. unfold bind. rewrite H. reflexivity. Qed.

Lemma bind_raise {A B} (m : M A) (k : A -> M B) vm (e : exn) vm' :
  m vm = (Raise e, vm') -> bind m k vm = (Raise e, vm').
Proof. intros H. unfold bind. rewrite H. reflexivity. Qed.

Lemma print_text (s : string) vm (written : list Z) :
  output_stream vm = TextIO written ->
  print s vm = set_output_stream (TextIO (written ++ codes s ++ [10])) vm.
Proof. intros H. unfold print. rewrite H. reflexivity. Qed.

(** The machine [main] starts from, known by what [main] uses of it. *)
Ltac enter_main stdin :=
  unfold main; cbv zeta;
  match goal with
  | |- context [bind _ _ ?vm0] =>
      let vm := fresh "vm" in
      set (vm := vm0);
      assert (Hip : IP vm = VInt 0) by reflexivity;
      assert (Hlen : Z.of_nat (length (memory vm)) = 3 * 10000)
        by (apply (init_memory_length 10000 [] BytesIO); lia);
      assert (Hin : input_stream vm = stdin) by reflexivity;
      assert (Hout : output_stream vm = TextIO []) by reflexivity;
      assert (Hax : AX vm = VInt 0) by reflexivity;
      clearbody vm
  end.

(** Appending the two instructions and setting IP back to 0. *)
Ltac load_program Hip Hlen :=
  erewrite bind_ok;
    [| apply (add_instruction_at _ 0); [exact Hip | lia]];
  cbv beta;
  erewrite bind_ok;
    [| apply (add_instruction_at _ (0 + 1));
       [reflexivity
       | cbn [memory set_IP set_memory]; rewrite length_insert; lia]];
  cbv beta;
  erewrite bind_ok; [| reflexivity];
  cbv beta.

(** X22.  [main] echoes one byte.  With a first byte [b] on the standard
    input that is an ASCII code, [main] returns normally: it has consumed
    that byte only, AX holds [b], IP is 2, and the standard output holds
    the line printed between the two steps, with [b] in decimal, followed
    by the single character [b]. *)
Theorem main_echoes (int_of_float : float -> exn_class + Z)
    (b : Z) (rest : list Z) :
  0 <= b < 128 ->
  exists vm,
    main int_of_float (b :: rest) = (Ok tt, vm)
    /\ AX vm = VInt b
    /\ input_stream vm = rest
    /\ output_stream vm
       = TextIO (codes ("--------------AX: "
                        +:+ NilZero.string_of_int (Z.to_int b)
                        +:+ "----------------")
                 ++ [10] ++ [b])
    /\ IP vm = VInt 2.
Proof.
  intros Hb. enter_main (b :: rest). eexists. split.
  - load_program Hip Hlen.
    erewrite bind_ok.
    2:{ rewrite (next_calls _ 0 (VFun (Input "AX"))).
        - apply (input_register _ R_AX b rest). exact Hin.
        - reflexivity.
        - cbn [memory set_IP set_memory]. apply getitem_in_range; [lia|].
          rewrite list_lookup_insert_ne by (cbn; lia).
          apply list_lookup_insert_eq. lia. }
    cbv beta.
    erewrite bind_ok; [| reflexivity]. cbv beta.
    erewrite bind_ok; [| reflexivity]. cbv beta.
    erewrite print_text; [| exact Hout].
    erewrite bind_ok.
    2:{ rewrite (next_calls _ (0 + 1) (VFun (Output "AX"))).
        - apply (output_text _ "AX" b).
          + exact (read_register _ R_AX).
          + lia.
          + reflexivity.
        - reflexivity.
        - cbn [memory set_IP set_memory setattr set_AX set_input_stream
                 set_output_stream].
          apply getitem_in_range; [lia|].
          apply list_lookup_insert_eq. rewrite length_insert. lia. }
    reflexivity.
  - repeat apply conj; try reflexivity.
    cbn [output_stream set_output_stream]. rewrite <- !app_assoc. reflexivity.
Qed.

(** X23.  [main] at the end of input.  With nothing on the standard
    input, [main] raises the [TypeError] of [ord] out of its first step:
    nothing is printed or written, AX is still 0, and IP is 1, past the
    [input] instruction. *)
Theorem main_at_end_of_input (int_of_float : float -> exn_class + Z) :
  exists vm,
    main int_of_float [] = (Raise (host_error TypeError), vm)
    /\ AX vm = VInt 0
    /\ output_stream vm = TextIO []
    /\ IP vm = VInt 1.
Proof.
  enter_main (@nil Z). eexists. split.
  - load_program Hip Hlen.
    erewrite bind_raise; [reflexivity|].
    rewrite (next_calls _ 0 (VFun (Input "AX"))).
    + cbn [call_value call]. unfold input. run.
      cbn [input_stream set_IP set_memory]. rewrite Hin. reflexivity.
    + reflexivity.
    + cbn [memory set_IP set_memory]. apply getitem_in_range; [lia|].
      rewrite list_lookup_insert_ne by (cbn; lia).
      apply list_lookup_insert_eq. lia.
  - repeat apply conj; [exact Hax | exact Hout | reflexivity].
Qed.

End Properties.

(** ** Concrete runs on the reference host *)

#[local] Existing Instance RefHost.host.

(** C1.  The stack of [with_return_address] holds the return address 1
    at SP = 5, and IP is 0.  Executing ret returns without an exception
    and leaves the machine as it was: SP is still 5, not 6, and IP is
    still 0, not 1.  Nothing was popped and no jump was made. *)
Theorem ret_neither_pops_nor_jumps :
  getitem (memory Examples.with_return_address)
          (SP Examples.with_return_address) = Ok (VInt 1)
  /\ call Ret Examples.with_return_address
     = (Ok None, Examples.with_return_address)
  /\ SP (snd (call Ret Examples.with_return_address)) = VInt 5
  /\ IP (snd (call Ret Examples.with_return_address)) = VInt 0.
Proof. rewrite ret_changes_nothing. repeat split. Qed.

(** C2.  With AX = 5, [sub AX, 5] stores in AX the closure of
    [cmp AX, 5] instead of the difference 0, returns that closure, and
    leaves ZERO at 0; [cmp AX, 5] itself, on the same machine, computes 0
    and sets ZERO to 1. *)
Theorem sub_stores_the_comparison_unrun :
  read_address Examples.ax5 "AX" false = Ok (VInt 5)
  /\ read_address Examples.ax5 "5" false = Ok (VInt 5)
  /\ call (Sub "AX" "5") Examples.ax5
     = (Ok (Some (VFun (Cmp "AX" "5"))),
        set_AX (VFun (Cmp "AX" "5")) Examples.ax5)
  /\ ZERO (snd (call (Sub "AX" "5") Examples.ax5)) = 0
  /\ call (Cmp "AX" "5") Examples.ax5
     = (Ok (Some (VInt 0)), set_ZERO 1 Examples.ax5).
Proof. repeat split. Qed.

(** C3.  With AX = 6, [bit_and AX, 1] stores in AX the closure of
    [bit_test AX, 1] instead of 6 & 1 = 0 and leaves ZERO at 0;
    [bit_test AX, 1] itself computes 0 and sets ZERO to 1. *)
Theorem bit_and_stores_the_test_unrun :
  read_address Examples.ax6 "AX" false = Ok (VInt 6)
  /\ read_address Examples.ax6 "1" false = Ok (VInt 1)
  /\ call (BitAnd "AX" "1") Examples.ax6
     = (Ok None, set_AX (VFun (BitTest "AX" "1")) Examples.ax6)
  /\ ZERO (snd (call (BitAnd "AX" "1") Examples.ax6)) = 0
  /\ call (BitTest "AX" "1") Examples.ax6
     = (Ok (Some (VInt 0)), set_ZERO 1 Examples.ax6).
Proof. repeat split. Qed.

(** C7.  Two of the listed instructions set no flag.  With AX = 5 and
    both flags 0, [sub AX, 7] has the negative difference -2 and leaves
    NEG at 0, and [bit_and AX, 2] has the result 0 and leaves ZERO at 0;
    [cmp AX, 7] and [bit_test AX, 2] on the same machine set NEG and
    ZERO to 1. *)
Theorem sub_and_bit_and_set_no_flag :
  ZERO Examples.ax5 = 0 /\ NEG Examples.ax5 = 0
  /\ NEG (snd (call (Sub "AX" "7") Examples.ax5)) = 0
  /\ ZERO (snd (call (BitAnd "AX" "2") Examples.ax5)) = 0
  /\ call (Cmp "AX" "7") Examples.ax5
     = (Ok (Some (VInt (-2))), set_NEG 1 Examples.ax5)
  /\ call (BitTest "AX" "2") Examples.ax5
     = (Ok (Some (VInt 0)), set_ZERO 1 Examples.ax5).
Proof. repeat split. Qed.

(** On [fresh] the stack segment is the cells 4 and 5, and SP is 6.  The
    two pushes would land on 5 and 4, both inside the segment, but the
    second lands on the segment base and is refused: it raises the
    out-of-stack-space error and stores nothing.  The first pop then
    returns the 0 of the base cell, not the 9 that was to be pushed. *)
Lemma push_onto_segment_base_refused :
  SP Examples.fresh = VInt 6
  /\ SS Examples.fresh = 4
  /\ length (memory Examples.fresh) = 6%nat
  /\ call (Push "7") Examples.fresh
     = (Ok None,
        set_memory [VFun Unavailable; VFun Unavailable;
                    VInt 0; VInt 0; VInt 0; VInt 7]
                   (set_SP (VInt 5) Examples.fresh))
  /\ call (Push "9") (snd (call (Push "7") Examples.fresh))
     = (Raise (Exn MemoryError (Some "Insufficient stack space")),
        set_SP (VInt 4) (snd (call (Push "7") Examples.fresh)))
  /\ fst (call (Pop None)
              (snd (call (Push "9") (snd (call (Push "7") Examples.fresh)))))
     = Ok (Some (VInt 0))
  /\ ~ (exists vm2 vm3,
          call (Push "9") (snd (call (Push "7") Examples.fresh))
            = (Ok None, vm2)
          /\ call (Pop None) vm2 = (Ok (Some (VInt 9)), vm3)).
Proof.
  repeat apply conj; try reflexivity.
  intros (vm2 & vm3 & H & _). discriminate H.
Qed.

(** With both flags 0, jae jumps although neither ZERO nor NEG holds, and
    jna and jae leave different machines: their conditions are not the
    same. *)
Lemma jae_jumps_with_flags_clear :
  read_address Examples.fresh "1" false = Ok (VInt 1)
  /\ IP Examples.fresh <> VInt 1
  /\ ~ (IP (snd (call (Jae "1") Examples.fresh)) = VInt 1
        <-> ZERO Examples.fresh <> 0 \/ NEG Examples.fresh <> 0)
  /\ call (Jna "1") Examples.fresh <> call (Jae "1") Examples.fresh.
Proof.
  split; [reflexivity|]. split; [discriminate|]. split.
  - intros [H _]. destruct (H eq_refl) as [N|N]; apply N; reflexivity.
  - discriminate.
Qed.

(** On [full_stack], SP - 1 is the segment base; push raises the
    out-of-stack-space error, but the machine has changed: SP went from 3
    to 2. *)
Lemma full_stack_push_moves_SP :
  SP Examples.full_stack = VInt 3
  /\ SS Examples.full_stack = 2
  /\ fst (call (Push "5") Examples.full_stack)
     = Raise (Exn MemoryError (Some "Insufficient stack space"))
  /\ SP (snd (call (Push "5") Examples.full_stack)) = VInt 2
  /\ snd (call (Push "5") Examples.full_stack) <> Examples.full_stack.
Proof. repeat split. discriminate. Qed.

(** No method undoes what it did before it raised.  [pop] with a
    destination that cannot be written has already moved SP, and a step
    on an empty code cell has already advanced IP. *)
Lemma pop_commits_before_raising :
  SP Examples.with_return_address = VInt 5
  /\ fst (call (Pop (Some "5")) Examples.with_return_address)
     = Raise (Exn TypeError (Some "Unknown type: 5"))
  /\ SP (snd (call (Pop (Some "5")) Examples.with_return_address)) = VInt 6.
Proof. repeat split. Qed.

Lemma step_on_empty_cell_advances_IP :
  IP Examples.fresh = VInt 0
  /\ fst (next Examples.fresh) = Raise (Exn TypeError (Some "Empty"))
  /\ IP (snd (next Examples.fresh)) = VInt 1.
Proof. repeat split. Qed.

(** On [fresh], of six cells, the operand [[-1]] has the effective
    address -1, outside [0, 6); the read raises nothing and returns the
    last cell, and the write raises nothing and overwrites that cell. *)
Lemma negative_address_wraps :
  length (memory Examples.fresh) = 6%nat
  /\ ~ (0 <= -1 < 3 * 2)
  /\ is_memory "[-1]" = true
  /\ read_address Examples.fresh "[-1]" true = Ok (VInt (-1))
  /\ read_address Examples.fresh "[-1]" false = Ok (VInt 0)
  /\ write_address "[-1]" (VInt 42) Examples.fresh
     = (Ok tt,
        set_memory [VFun Unavailable; VFun Unavailable;
                    VInt 0; VInt 0; VInt 0; VInt 42] Examples.fresh)
  /\ memory (snd (write_address "[-1]" (VInt 42) Examples.fresh))
     <> memory Examples.fresh.
Proof. repeat split; [lia | discriminate]. Qed.

Lemma jna_jae_conditions_witness :
  (IP (snd (call (Jna "1") Examples.fresh)) = VInt 1
   <-> ZERO Examples.fresh <> 0 \/ NEG Examples.fresh <> 0)
  /\ (IP (snd (call (Jae "1") Examples.fresh)) = VInt 1
      <-> ZERO Examples.fresh <> 0 \/ NEG Examples.fresh = 0).
Proof.
  apply (jna_jae_conditions Examples.fresh "1" (VInt 1)).
  - reflexivity.
  - discriminate.
Defined.

Lemma push_at_capacity_witness :
  call (Push "5") Examples.full_stack =
    (Raise (Exn MemoryError (Some "Insufficient stack space")),
     set_SP (VInt (3 - 1)) Examples.full_stack)
  /\ memory (set_SP (VInt (3 - 1)) Examples.full_stack)
     = memory Examples.full_stack
  /\ SP (set_SP (VInt (3 - 1)) Examples.full_stack)
     = VInt (SS Examples.full_stack).
Proof.
  apply (push_at_capacity Examples.full_stack 3 "5"); reflexivity.
Defined.

Lemma indirect_access_bounds_witness :
  (6 < - Z.of_nat (length (memory Examples.fresh))
   \/ Z.of_nat (length (memory Examples.fresh)) <= 6 ->
     read_address Examples.fresh "[6]" false = Raise (host_error IndexError) /\
     write_address "[6]" (VInt 42) Examples.fresh
       = (Raise (host_error IndexError), Examples.fresh))
  /\ (- Z.of_nat (length (memory Examples.fresh)) <= 6 < 0 ->
      exists (k : nat) (cell : value),
        Z.of_nat k = Z.of_nat (length (memory Examples.fresh)) + 6 /\
        memory Examples.fresh !! k = Some cell /\
        read_address Examples.fresh "[6]" false = Ok cell /\
        write_address "[6]" (VInt 42) Examples.fresh
          = (Ok tt, set_memory (<[k := VInt 42]> (memory Examples.fresh))
                               Examples.fresh))
  /\ length (memory (snd (write_address "[6]" (VInt 42) Examples.fresh)))
     = length (memory Examples.fresh).
Proof.
  apply (indirect_access_bounds Examples.fresh "[6]" 6 (VInt 42));
    reflexivity.
Defined.

Lemma push_push_pop_pop_witness :
  exists vm2 vm3 vm4,
    call (Push "7") Examples.roomy
      = (Ok None, snd (call (Push "7") Examples.roomy))
    /\ call (Push "9") (snd (call (Push "7") Examples.roomy)) = (Ok None, vm2)
    /\ call (Pop None) vm2 = (Ok (Some (VInt 9)), vm3)
    /\ call (Pop None) vm3 = (Ok (Some (VInt 7)), vm4)
    /\ SP vm4 = SP Examples.roomy.
Proof.
  apply (push_push_pop_pop Examples.roomy 12 "7" "9" (VInt 7) (VInt 9));
    [ reflexivity
    | change (0 <= 8 < 12 - 2); lia
    | change (12 <= 12); lia
    | reflexivity.. ].
Defined.

Lemma next_fetch_advance_execute_witness :
  (next Examples.jmp_program
     = call_value (VFun (Jmp "3")) (set_IP (VInt (0 + 1)) Examples.jmp_program)
   /\ next Examples.jmp_program
      = (Ok None, set_IP (VInt 3) Examples.jmp_program))
  /\ (next Examples.je_program_zero
        = call_value (VFun (Je "3"))
                     (set_IP (VInt (0 + 1)) Examples.je_program_zero)
      /\ next Examples.je_program_zero
         = (Ok None, set_IP (VInt 3) Examples.je_program_zero))
  /\ next Examples.je_program
     = (Ok None, set_IP (VInt (0 + 1)) Examples.je_program).
Proof.
  destruct (next_fetch_advance_execute
              Examples.jmp_program 0 (VFun (Jmp "3")) eq_refl eq_refl)
    as [F1 J1].
  destruct (next_fetch_advance_execute
              Examples.je_program_zero 0 (VFun (Je "3")) eq_refl eq_refl)
    as [F2 J2].
  destruct (next_fetch_advance_execute
              Examples.je_program 0 (VFun (Je "3")) eq_refl eq_refl)
    as [_ J3].
  destruct (J1 "3" (VInt 3) eq_refl) as [Hjmp _].
  destruct (J2 "3" (VInt 3) eq_refl) as (_ & Hje & _).
  destruct (J3 "3" (VInt 3) eq_refl) as (_ & Hje0 & _).
  split; [split; [exact F1 | exact (proj1 (Hjmp eq_refl))]|].
  split; [split; [exact F2 | exact (Hje eq_refl)]|].
  exact (Hje0 eq_refl).
Defined.

(** ** Concrete runs of the further properties *)

Lemma move_to_register_witness :
  call (Move "BX" "AX") Examples.ax5 = (Ok None, set_BX (VInt 5) Examples.ax5)
  /\ read_address (set_BX (VInt 5) Examples.ax5) "BX" false = Ok (VInt 5)
  /\ (forall r', R_BX <> r' ->
        getattr (set_BX (VInt 5) Examples.ax5) r' = getattr Examples.ax5 r')
  /\ memory (set_BX (VInt 5) Examples.ax5) = memory Examples.ax5.
Proof. exact (move_to_register Examples.ax5 R_BX "AX" (VInt 5) eq_refl). Defined.

Lemma move_to_memory_witness :
  exists vm',
    call (Move "[3]" "7") Examples.fresh = (Ok None, vm')
    /\ read_address vm' "[3]" false = Ok (VInt 7)
    /\ (forall r, getattr vm' r = getattr Examples.fresh r)
    /\ flags vm' = flags Examples.fresh
    /\ length (memory vm') = length (memory Examples.fresh).
Proof.
  apply (move_to_memory Examples.fresh "[3]" "7" 3 (VInt 7));
    [reflexivity | reflexivity | change (-6 <= 3 < 6); lia | reflexivity].
Defined.

Lemma lea_needs_memory_operand_witness :
  call (Lea "AX" "BX") Examples.fresh = (Raise NO_ADDRESS, Examples.fresh).
Proof. exact (lea_needs_memory_operand Examples.fresh "AX" "BX" eq_refl). Defined.

Lemma lea_then_dereference_witness :
  exists vm',
    call (Lea "BX" "[3]") Examples.fresh = (Ok None, vm')
    /\ getattr vm' R_BX = VInt 3
    /\ read_address vm' "[BX]" false = read_address Examples.fresh "[3]" false.
Proof.
  exact (lea_then_dereference Examples.fresh R_BX "[3]" 3 eq_refl eq_refl).
Defined.

Lemma push_then_pop_register_witness :
  exists vm1 vm2,
    call (Push "7") Examples.roomy = (Ok None, vm1)
    /\ call (Pop (Some "AX")) vm1 = (Ok (Some (VInt 7)), vm2)
    /\ getattr vm2 R_AX = VInt 7
    /\ (R_AX <> R_SP -> SP vm2 = SP Examples.roomy).
Proof.
  apply (push_then_pop_register Examples.roomy 12 "7" (VInt 7) R_AX);
    [ reflexivity
    | change (12 - 1 <> 8); lia
    | change (0 <= 12 - 1 < 12); lia
    | reflexivity ].
Defined.

Lemma push_after_refused_push_witness :
  exists vm1 vm2,
    call (Push "5") Examples.full_stack
      = (Raise (Exn MemoryError (Some "Insufficient stack space")), vm1)
    /\ call (Push "6") vm1 = (Ok None, vm2)
    /\ SP vm2 = VInt (SS Examples.full_stack - 1)
    /\ memory vm2 !! Z.to_nat (SS Examples.full_stack - 1) = Some (VInt 6).
Proof.
  apply (push_after_refused_push Examples.full_stack 3 "5" "6" (VInt 6));
    [ reflexivity | reflexivity | change (1 <= 2 <= 3); lia | reflexivity ].
Defined.

Lemma flags_from_result_witness :
  flags (snd (call (Add "AX" "-5") Examples.ax5))
    = flags (flags_after (VInt 0) Examples.ax5)
  /\ flags (snd (call (Add "AX" "-5") Examples.ax5)) = (1, 0).
Proof.
  split; [|reflexivity].
  apply (flags_from_result Examples.ax5 "AX" "-5" (VInt 5) (VInt (-5)) (VInt 0));
    reflexivity.
Defined.

Lemma compare_then_jump_witness :
  exists vm',
    call (Cmp "AX" "7") Examples.ax5 = (Ok (Some (VInt (5 - 7))), vm')
    /\ (IP (snd (call (Je "1") vm')) = VInt 1 <-> 5 = 7)
    /\ (IP (snd (call (Jne "1") vm')) = VInt 1 <-> 5 <> 7)
    /\ (IP (snd (call (Jb "1") vm')) = VInt 1 <-> 5 < 7)
    /\ (IP (snd (call (Jnb "1") vm')) = VInt 1 <-> 7 <= 5)
    /\ (IP (snd (call (Jbe "1") vm')) = VInt 1 <-> 5 <= 7)
    /\ (IP (snd (call (Ja "1") vm')) = VInt 1 <-> 7 < 5)
    /\ (IP (snd (call (Jna "1") vm')) = VInt 1 <-> 5 <= 7)
    /\ (IP (snd (call (Jae "1") vm')) = VInt 1 <-> 7 <= 5).
Proof.
  apply (compare_then_jump Examples.ax5 "AX" "7" "1" 5 7 (VInt 1));
    try reflexivity. discriminate.
Defined.

Lemma jumps_are_complementary_witness :
  (IP (snd (call (Je "1") Examples.fresh)) = VInt 1
   <-> IP (snd (call (Jne "1") Examples.fresh)) <> VInt 1)
  /\ (IP (snd (call (Jb "1") Examples.fresh)) = VInt 1
      <-> IP (snd (call (Jnb "1") Examples.fresh)) <> VInt 1)
  /\ (IP (snd (call (Jb "1") Examples.fresh)) = VInt 1
      <-> IP (snd (call (Jae "1") Examples.fresh)) <> VInt 1)
  /\ (IP (snd (call (Ja "1") Examples.fresh)) = VInt 1
      <-> IP (snd (call (Jna "1") Examples.fresh)) <> VInt 1)
  /\ (IP (snd (call (Ja "1") Examples.fresh)) = VInt 1
      <-> IP (snd (call (Jbe "1") Examples.fresh)) <> VInt 1)
  /\ call (Jbe "1") Examples.fresh = call (Jna "1") Examples.fresh
  /\ call (Jnb "1") Examples.fresh = call (Jae "1") Examples.fresh.
Proof.
  apply (jumps_are_complementary Examples.fresh "1" (VInt 1));
    [reflexivity | discriminate].
Defined.

Lemma second_comparison_keeps_NEG_witness :
  exists vm1 vm2,
    call (Cmp "AX" "7") Examples.ax5 = (Ok (Some (VInt (5 - 7))), vm1)
    /\ call (Cmp "AX" "3") vm1 = (Ok (Some (VInt (5 - 3))), vm2)
    /\ ZERO vm2 = 0 /\ NEG vm2 = 1
    /\ IP (snd (call (Ja "1") vm2)) <> VInt 1
    /\ IP (snd (call (Jb "1") vm2)) = VInt 1.
Proof.
  apply (second_comparison_keeps_NEG Examples.ax5 "AX" "7" "AX" "3" "1"
           5 7 5 3 (VInt 1));
    try reflexivity; try discriminate; lia.
Defined.

Lemma arithmetic_on_register_witness :
  call (Add "AX" "-7") Examples.ax5
    = (Ok (Some (VInt (5 + -7))),
       set_AX (VInt (5 + -7)) (flags_after (VInt (5 + -7)) Examples.ax5))
  /\ call (Mul "AX" "-7") Examples.ax5
     = (Ok None,
        set_AX (VInt (5 * -7)) (flags_after (VInt (5 * -7)) Examples.ax5))
  /\ call (BitOr "AX" "-7") Examples.ax5
     = (Ok None,
        set_AX (VInt (Z.lor 5 (-7)))
               (flags_after (VInt (Z.lor 5 (-7))) Examples.ax5))
  /\ call (BitXor "AX" "-7") Examples.ax5
     = (Ok None,
        set_AX (VInt (Z.lxor 5 (-7)))
               (flags_after (VInt (Z.lxor 5 (-7))) Examples.ax5))
  /\ call (BitNot "AX") Examples.ax5
     = (Ok None,
        set_AX (VInt (- 5 - 1)) (flags_after (VInt (- 5 - 1)) Examples.ax5))
  /\ (-7 <> 0 ->
      exists q : Z,
        call (Div "AX" "-7") Examples.ax5
          = (Ok None, set_AX (VInt q) (flags_after (VInt q) Examples.ax5))
        /\ (0 < -7 -> -7 * q <= 5 < -7 * q + -7)
        /\ (-7 < 0 -> -7 * q + -7 < 5 <= -7 * q)).
Proof.
  exact (arithmetic_on_register Examples.ax5 R_AX "-7" 5 (-7) eq_refl eq_refl).
Defined.

Lemma division_by_zero_witness :
  call (Div "AX" "0") Examples.ax5
    = (Raise (host_error ZeroDivisionError), Examples.ax5)
  /\ call (Fdiv "AX" "0") Examples.ax5
     = (Raise (host_error ZeroDivisionError), Examples.ax5).
Proof. exact (division_by_zero Examples.ax5 "AX" "0" 5 eq_refl eq_refl). Defined.

Lemma append_then_step_witness :
  exists vm1,
    add_instruction (VFun (Push "7")) Examples.fresh = (Ok tt, vm1)
    /\ IP vm1 = VInt (0 + 1)
    /\ getitem (memory vm1) (VInt 0) = Ok (VFun (Push "7"))
    /\ next (set_IP (VInt 0) vm1) = call (Push "7") vm1.
Proof.
  apply (append_then_step Examples.fresh 0 (Push "7"));
    [reflexivity | change (0 <= 0 < 6); lia].
Defined.

Lemma append_twice_witness :
  exists vm1 vm2,
    add_instruction (VFun (Input "AX")) Examples.fresh = (Ok tt, vm1)
    /\ add_instruction (VFun (Output "AX")) vm1 = (Ok tt, vm2)
    /\ IP vm2 = VInt (0 + 2)
    /\ memory vm2 !! Z.to_nat 0 = Some (VFun (Input "AX"))
    /\ memory vm2 !! Z.to_nat (0 + 1) = Some (VFun (Output "AX"))
    /\ (forall k : nat,
          k <> Z.to_nat 0 -> k <> Z.to_nat (0 + 1) ->
          memory vm2 !! k = memory Examples.fresh !! k).
Proof.
  apply (append_twice Examples.fresh 0);
    [reflexivity | lia | change (0 + 1 < 6); lia].
Defined.

Lemma append_outside_memory_witness :
  add_instruction (VFun Ret) Examples.ip_past_end
    = (Raise (host_error IndexError), Examples.ip_past_end).
Proof.
  apply (append_outside_memory Examples.ip_past_end 6 (VFun Ret));
    [reflexivity | change (6 <= 6); lia].
Defined.

Lemma new_machine_layout_witness :
  Z.of_nat (length (memory Examples.fresh)) = 3 * 2
  /\ CS Examples.fresh = 0
  /\ DS Examples.fresh = 2
  /\ SS Examples.fresh = 2 * 2
  /\ SP Examples.fresh = VInt (3 * 2)
  /\ BP Examples.fresh = VInt (3 * 2 - 1)
  /\ IP Examples.fresh = VInt 0
  /\ (forall r, getattr Examples.fresh r
                = match r with
                  | R_SP => VInt (3 * 2)
                  | R_BP => VInt (3 * 2 - 1)
                  | _ => VInt 0
                  end)
  /\ flags Examples.fresh = (0, 0)
  /\ (forall i, 0 <= i < 2 ->
        getitem (memory Examples.fresh) (VInt i) = Ok (VFun Unavailable))
  /\ (forall i, 2 <= i < 3 * 2 ->
        getitem (memory Examples.fresh) (VInt i) = Ok (VInt 0)).
Proof. apply (new_machine_layout 2 [] BytesIO). lia. Defined.

Lemma default_streams_raise_witness :
  (exists e, call (Output "AX") Examples.byte_sink_with_input
             = (Raise e, Examples.byte_sink_with_input))
  /\ call (Input "AX") Examples.text_sink_at_end
     = (Raise (host_error TypeError), Examples.text_sink_at_end).
Proof.
  split.
  - exact (proj1 (default_streams_raise Examples.byte_sink_with_input "AX")
                 eq_refl).
  - exact (proj2 (default_streams_raise Examples.text_sink_at_end "AX")
                 eq_refl).
Defined.

Lemma input_then_output_witness :
  exists vm1 vm2,
    call (Input "AX") Examples.terminal = (Ok None, vm1)
    /\ call (Output "AX") vm1 = (Ok None, vm2)
    /\ getattr vm2 R_AX = VInt 65
    /\ input_stream vm2 = []
    /\ output_stream vm2 = TextIO ([] ++ [65]).
Proof.
  apply (input_then_output Examples.terminal R_AX 65 [] []);
    [reflexivity | reflexivity | lia].
Defined.

Lemma main_echoes_witness :
  exists vm,
    main (host := RefHost.host) RefHost.int_of_float (65 :: []) = (Ok tt, vm)
    /\ AX vm = VInt 65
    /\ input_stream vm = []
    /\ output_stream vm
       = TextIO (codes ("--------------AX: "
                        +:+ NilZero.string_of_int (Z.to_int 65)
                        +:+ "----------------")
                 ++ [10] ++ [65])
    /\ IP vm = VInt 2.
Proof.
  apply (main_echoes (host := RefHost.host) RefHost.int_of_float 65 []). lia.
Defined.
